(** * brain-connect: BLE session set-up and BrainLink packet decoding

    A shallow embedding of [brainconnect.py] (the rich, 15-byte packet
    variant) and [connect.py] (the minimal, 3-byte packet variant), and the
    properties of the decoder, the signal-quality estimator, the device
    matcher, the service resolver and the session handle.

    Conventions of the embedding:
    - a notification payload ([bytearray]) is a [list byte]; indexing yields
      the Python [int] of the byte, a [Z] in [0, 255];
    - Python [float] is IEEE binary64, i.e. Rocq's primitive [float];
    - a Python [dict] with string keys is a [gmap string value];
    - a raised exception is the [Raised] outcome of the [outcome] monad;
    - the BLE stack (bleak) is a black box: its answers are the fields of a
      [transport] record, and every call made to it is logged in the world. *)

From Stdlib Require Import ZArith QArith Qabs Floats Uint63 Ascii String Lia.
From Stdlib.Strings Require Import Byte.
From stdpp Require Import gmap strings list.

Local Open Scope string_scope.
Local Open Scope Z_scope.

(* Decimal bounds such as 50.15 stand for the nearest binary64 value. *)
#[local] Set Warnings "-inexact-float".

(** ** The fragment of the Python runtime the two scripts use *)

Module Py.

Inductive exn : Type :=
| IndexError
| BleakError (msg : string).

Inductive outcome (A : Type) : Type :=
| Returned (a : A)
| Raised (e : exn).
Arguments Returned {A} a.
Arguments Raised {A} e.

#[export] Instance outcome_ret : MRet outcome := fun A a => Returned a.
#[export] Instance outcome_bind : MBind outcome := fun A B f m =>
  match m with
  | Returned a => f a
  | Raised e => Raised e
  end.
#[export] Instance outcome_fmap : FMap outcome := fun A B f m =>
  match m with
  | Returned a => Returned (f a)
  | Raised e => Raised e
  end.

(** Values stored in the dictionaries the decoders return. *)
Inductive value : Type :=
| VInt (z : Z)
| VFloat (f : float)
| VStr (s : string).

(** The [int] of a byte of a [bytearray]. *)
Definition int_of_byte (b : byte) : Z := Z.of_N (Byte.to_N b).

(** [bytes([...])] for literals in range; used to write payloads down. *)
Definition byte_of_int (z : Z) : byte :=
  match Byte.of_N (Z.to_N z) with
  | Some b => b
  | None => x00
  end.
Definition bytes (l : list Z) : list byte := byte_of_int <$> l.

(** [data[i]] for [i >= 0]: the byte as an [int], [IndexError] out of range. *)
Definition getitem (data : list byte) (i : nat) : outcome Z :=
  match data !! i with
  | Some b => Returned (int_of_byte b)
  | None => Raised IndexError
  end.

(** [data[i:]] *)
Definition slice_from (i : nat) (data : list byte) : list byte := drop i data.

(** [float(z)] as true division and mixed arithmetic apply it; exact for
    the integers met here (all below 2^53). *)
Definition float_of_int (z : Z) : float := PrimFloat.of_uint63 (Uint63.of_Z z).

(** [a / b] on two ints: the correctly rounded quotient. *)
Definition truediv (a b : Z) : float :=
  PrimFloat.div (float_of_int a) (float_of_int b).

(** [x * n] for a float [x] and an int [n]. *)
Definition mul_float_int (x : float) (n : Z) : float :=
  PrimFloat.mul x (float_of_int n).

(** [max(a, b)] and [min(a, b)] on ints. *)
Definition max_int (a b : Z) : Z := if b >? a then b else a.
Definition min_int (a b : Z) : Z := if b <? a then b else a.

(** [min(x, n)] for a float [x] and an int [n]: the builtin keeps its first
    argument unless the second is strictly smaller, and returns that
    argument unconverted. *)
Definition min_float_int (x : float) (n : Z) : value :=
  if PrimFloat.ltb (float_of_int n) x then VInt n else VFloat x.

(** [len(set(l))] on a sequence of bytes. *)
Definition len_set (l : list byte) : nat :=
  size (list_to_set (int_of_byte <$> l) : gset Z).

(** [any(byte > 0 for byte in l)] *)
Definition any_positive (l : list byte) : bool :=
  existsb (fun b => int_of_byte b >? 0) l.

(** *** Strings.  Device names are taken in ASCII, where [str.lower]
    touches the letters A to Z only. *)

Definition lower_ascii (c : ascii) : ascii :=
  let n := nat_of_ascii c in
  if ((65 <=? n)%nat && (n <=? 90)%nat)%bool then ascii_of_nat (n + 32) else c.

Fixpoint lower (s : string) : string :=
  match s with
  | EmptyString => EmptyString
  | String c rest => String (lower_ascii c) (lower rest)
  end.

Fixpoint startswith (p s : string) : bool :=
  match p, s with
  | EmptyString, _ => true
  | String a p', String b s' => if Ascii.eqb a b then startswith p' s' else false
  | String _ _, EmptyString => false
  end.

(** [needle in hay] on strings: substring test. *)
Fixpoint contains (needle hay : string) : bool :=
  startswith needle hay ||
  match hay with
  | EmptyString => false
  | String _ rest => contains needle rest
  end.

(** Truthiness of a string: [bool(s)]. *)
Definition truthy_str (s : string) : bool :=
  match s with EmptyString => false | _ => true end.

End Py.

Import Py.

(** ** The BLE stack as the scripts see it (the [bleak] package) *)

Module Bleak.

(** A scan result: [device.name] may be [None]. *)
Record BLEDevice : Type := { name : option string; address : string }.

(** A [BleakClient(address)] object; [client_id] is its identity. *)
Record BleakClient : Type := { client_id : nat; client_address : string }.

(** A GATT characteristic and a GATT service of a connected peripheral. *)
Record BleakGATTCharacteristic : Type := { char_uuid : string }.
Record BleakGATTService : Type :=
  { uuid : string; characteristics : list BleakGATTCharacteristic }.

(** The answers of the stack.  Every awaited call either returns or
    raises; the services come in the order the peripheral reports them. *)
Record transport : Type := {
  discover : outcome (list BLEDevice);
  connect : string -> outcome unit;
  get_services : string -> outcome (list BleakGATTService);
  get_service :
    list BleakGATTService -> string -> outcome (option BleakGATTService);
  get_characteristic :
    BleakGATTService -> string -> outcome (option BleakGATTCharacteristic);
  start_notify : string -> string -> outcome unit;
  disconnect : string -> outcome unit }.

(** Calls made to the stack, as logged. *)
Inductive call : Type :=
| CallDiscover
| CallConnect (c : BleakClient)
| CallGetServices (c : BleakClient)
| CallStartNotify (c : BleakClient) (characteristic : string)
| CallDisconnect (c : BleakClient).

(** The process: the module-level global [connected_client], the number of
    client objects constructed so far, and the calls made, oldest first. *)
Record world : Type := {
  connected_client : option BleakClient;
  clients_made : nat;
  calls : list call }.

Definition set_connected_client (c : option BleakClient) (w : world) : world :=
  {| connected_client := c; clients_made := clients_made w; calls := calls w |}.

Definition log (c : call) (w : world) : world :=
  {| connected_client := connected_client w;
     clients_made := clients_made w;
     calls := calls w ++ [c] |}.

(** Coroutines: state passing with exceptions; the state a coroutine has
    reached when it raises is kept. *)
Definition io (A : Type) : Type := world -> outcome A * world.

#[export] Instance io_ret : MRet io := fun A a w => (Returned a, w).
#[export] Instance io_bind : MBind io := fun A B f m w =>
  match m w with
  | (Returned a, w') => f a w'
  | (Raised e, w') => (Raised e, w')
  end.

(** [try: body except Exception as e: handler(e)] *)
Definition try_except {A : Type} (body : io A) (handler : exn -> io A) : io A :=
  fun w =>
    match body w with
    | (Returned a, w') => (Returned a, w')
    | (Raised e, w') => handler e w'
    end.

(** An awaited call to the stack: logged, then its answer. *)
Definition await {A : Type} (c : call) (answer : outcome A) : io A :=
  fun w => (answer, log c w).

Definition read_connected_client : io (option BleakClient) :=
  fun w => (Returned (connected_client w), w).
Definition write_connected_client (c : option BleakClient) : io unit :=
  fun w => (Returned tt, set_connected_client c w).

(** [BleakClient(address)]: a fresh object. *)
Definition new_client (addr : string) : io BleakClient :=
  fun w =>
    (Returned {| client_id := clients_made w; client_address := addr |},
     {| connected_client := connected_client w;
        clients_made := S (clients_made w);
        calls := calls w |}).

End Bleak.

Import Bleak.

(** ** brainconnect.py *)

Module BrainConnect.

Definition POSSIBLE_SERVICE_UUIDS : list string :=
  [ "0000fee9-0000-1000-8000-00805f9b34fb";
    "0000180f-0000-1000-8000-00805f9b34fb";
    "0000180a-0000-1000-8000-00805f9b34fb";
    "0000ffe0-0000-1000-8000-00805f9b34fb";
    "6e400001-b5a3-f393-e0a9-e50e24dcca9e";
    "00001800-0000-1000-8000-00805f9b34fb";
    "00001801-0000-1000-8000-00805f9b34fb" ].

Definition POSSIBLE_CHARACTERISTIC_UUIDS : list string :=
  [ "0000fee1-0000-1000-8000-00805f9b34fb";
    "00002a19-0000-1000-8000-00805f9b34fb";
    "00002a29-0000-1000-8000-00805f9b34fb";
    "6e400003-b5a3-f393-e0a9-e50e24dcca9e";
    "00002a00-0000-1000-8000-00805f9b34fb";
    "00002a01-0000-1000-8000-00805f9b34fb" ].

(** [calculate_signal_quality(data)] *)
Definition calculate_signal_quality (data : list byte) : Z :=
  if (length data <? 2)%nat then 30
  else
    let has_valid_sync :=
      match data !! 0%nat with
      | Some b => int_of_byte b =? 170
      | None => false
      end in
    let has_non_zero_data := any_positive (slice_from 2 data) in
    let has_variation := (2 <? len_set (slice_from 2 data))%nat in
    if has_valid_sync && has_non_zero_data && has_variation then 95
    else if has_valid_sync && has_non_zero_data then 80
    else if has_valid_sync then 60
    else if has_non_zero_data then 40
    else 20.

(** One band: [min((data[i] / 255) * 100, 100)]. *)
Definition band (raw : Z) : value :=
  min_float_int (mul_float_int (truediv raw 255) 100) 100.

(** [parse_brainlink_data(data)]; [now] is the reading of the event loop's
    clock, [asyncio.get_event_loop().time()]. *)
Definition parse_brainlink_data (data : list byte) (now : float)
  : outcome (gmap string value) :=
  if (length data <? 10)%nat then
    Returned {[ "error" := VStr "Incomplete data" ]}
  else
    let result : gmap string value := ∅ in
    d8 ← getitem data 8;
    let result := <[ "attention" := VInt (min_int (max_int d8 0) 100) ]> result in
    d9 ← getitem data 9;
    let result := <[ "meditation" := VInt (min_int (max_int d9 0) 100) ]> result in
    d10 ← getitem data 10;
    let result := <[ "delta" := band d10 ]> result in
    d11 ← getitem data 11;
    let result := <[ "theta" := band d11 ]> result in
    d12 ← getitem data 12;
    let result := <[ "alpha" := band d12 ]> result in
    d13 ← getitem data 13;
    let result := <[ "beta" := band d13 ]> result in
    d14 ← getitem data 14;
    let result := <[ "gamma" := band d14 ]> result in
    let result := <[ "signal_quality" := VInt (calculate_signal_quality data) ]> result in
    let result := <[ "timestamp" := VFloat now ]> result in
    Returned result.

(** The keywords of [find_device]. *)
Definition NAME_KEYWORDS : list string := ["brainlink"; "brain"; "eeg"; "neuro"].

(** [any(prefix in (device.name or "").lower() for prefix in [...])] *)
Definition is_brainlink (device : BLEDevice) : bool :=
  let name_or_empty :=
    match name device with
    | Some n => if truthy_str n then n else ""
    | None => ""
    end in
  existsb (fun prefix => contains prefix (lower name_or_empty)) NAME_KEYWORDS.

(** The loop of [find_device] over the scan results. *)
Fixpoint first_brainlink (devices : list BLEDevice) : option BLEDevice :=
  match devices with
  | [] => None
  | device :: rest =>
      if is_brainlink device then Some device else first_brainlink rest
  end.

(** The two resolution loops of [connect_to_device] have one shape:
    [found = None; for u in candidates: try: found = lookup(u); if found:
    break; except Exception: continue].  [found] is the loop variable's
    value so far. *)
Fixpoint resolve_from {A : Type} (lookup : string -> outcome (option A))
    (candidates : list string) (found : option A) : option A :=
  match candidates with
  | [] => found
  | u :: rest =>
      match lookup u with
      | Returned (Some x) => Some x
      | Returned None => resolve_from lookup rest None
      | Raised _ => resolve_from lookup rest found
      end
  end.

Definition resolve {A : Type} (lookup : string -> outcome (option A))
    (candidates : list string) : option A :=
  resolve_from lookup candidates None.

Section WithTransport.
Context (T : transport).

(** [find_device()] *)
Definition find_device : io (option BLEDevice) :=
  devices ← await CallDiscover (discover T);
  mret (first_brainlink devices).

(** The [try] block of [connect_to_device()] with its handler, for the
    matched [device] and the [client] constructed for it. *)
Definition connect_to_device_try (device : BLEDevice) (client : BleakClient)
  : io bool :=
  try_except
    (_ ← await (CallConnect client) (connect T (address device));
     services ← await (CallGetServices client) (get_services T (address device));
     match resolve (get_service T services) POSSIBLE_SERVICE_UUIDS with
     | None => mret false
     | Some service =>
         match resolve (get_characteristic T service)
                 POSSIBLE_CHARACTERISTIC_UUIDS with
         | None => mret false
         | Some characteristic =>
             _ ← await (CallStartNotify client (char_uuid characteristic))
                   (start_notify T (address device) (char_uuid characteristic));
             _ ← write_connected_client (Some client);
             mret true
         end
     end)
    (fun e => mret false).

(** [connect_to_device()] *)
Definition connect_to_device : io bool :=
  device ← find_device;
  match device with
  | None => mret false
  | Some device =>
      client ← new_client (address device);
      connect_to_device_try device client
  end.

(** [disconnect_from_device()] *)
Definition disconnect_from_device : io unit :=
  c ← read_connected_client;
  match c with
  | Some client =>
      _ ← await (CallDisconnect client) (disconnect T (client_address client));
      write_connected_client None
  | None => mret tt
  end.

End WithTransport.

(** [handle_data_changed(sender, data)]: the dictionary it prints after
    "Received Data: ".  The notification callback has no handler of its own:
    an exception of the decoder leaves it. *)
Definition handle_data_changed (sender : string) (data : list byte) (now : float)
  : outcome (gmap string value) :=
  parsed_data ← parse_brainlink_data data now;
  mret parsed_data.

End BrainConnect.

(** ** connect.py *)

Module Connect.

(** [parse_brainlink_data(data)]: [None] for an invalid packet. *)
Definition parse_brainlink_data (data : list byte)
  : outcome (option (gmap string value)) :=
  if (length data <? 3)%nat then Returned None
  else
    attention ← getitem data 1;
    meditation ← getitem data 2;
    Returned (Some ({[ "Attention" := VInt attention;
                       "Meditation" := VInt meditation ]})).

Definition POSSIBLE_SERVICE_UUIDS : list string :=
  [ "0000fee9-0000-1000-8000-00805f9b34fb";
    "0000180f-0000-1000-8000-00805f9b34fb";
    "0000180a-0000-1000-8000-00805f9b34fb";
    "0000ffe0-0000-1000-8000-00805f9b34fb";
    "6e400001-b5a3-f393-e0a9-e50e24dcca9e";
    "00001800-0000-1000-8000-00805f9b34fb";
    "00001801-0000-1000-8000-00805f9b34fb" ].

Definition CHARACTERISTIC_UUID : string := "0000ffe1-0000-1000-8000-00805f9b34fb".

(** [device.name and "Brain" in device.name] *)
Definition is_brainlink (device : BLEDevice) : bool :=
  match name device with
  | Some n => truthy_str n && contains "Brain" n
  | None => false
  end.

(** The second loop of [scan_for_brainlink]. *)
Fixpoint first_brainlink (devices : list BLEDevice) : option BLEDevice :=
  match devices with
  | [] => None
  | device :: rest =>
      if is_brainlink device then Some device else first_brainlink rest
  end.

(** [scan_for_brainlink()] after the scan has answered. *)
Definition match_devices (devices : list BLEDevice) : option BLEDevice :=
  match devices with
  | [] => None
  | _ => first_brainlink devices
  end.

Definition scan_for_brainlink (T : transport) : io (option BLEDevice) :=
  devices ← await CallDiscover (discover T);
  mret (match_devices devices).

(** The service loop of [connect_to_brainlink]:
    [found_service = None; for service in services: if service.uuid in
    POSSIBLE_SERVICE_UUIDS: found_service = service; break]. *)
Fixpoint find_known_service (services : list BleakGATTService)
    (found_service : option BleakGATTService) : option BleakGATTService :=
  match services with
  | [] => found_service
  | service :: rest =>
      if bool_decide (uuid service ∈ POSSIBLE_SERVICE_UUIDS) then Some service
      else find_known_service rest found_service
  end.

(** The exit of [async with BleakClient(address) as client], for a body run
    up to the point where it starts waiting: the client disconnects when
    the body returns early (None) or raises, and an exception of the
    disconnect replaces the one of the body; a body that has subscribed and
    waits (the client) has not left the block. *)
Definition async_with_exit (exit : io unit) (body : io (option BleakClient))
  : io (option BleakClient) :=
  fun w =>
    match body w with
    | (Returned (Some streaming), w') => (Returned (Some streaming), w')
    | (Returned None, w') =>
        match exit w' with
        | (Returned _, w'') => (Returned None, w'')
        | (Raised e', w'') => (Raised e', w'')
        end
    | (Raised e, w') =>
        match exit w' with
        | (Returned _, w'') => (Raised e, w'')
        | (Raised e', w'') => (Raised e', w'')
        end
    end.

(** [connect_to_brainlink()] up to the point where it starts waiting for
    notifications.  Entering the [async with] block connects.  The result is
    None when the function has returned, and the client when it has
    subscribed and waits. *)
Definition connect_to_brainlink_setup (T : transport) : io (option BleakClient) :=
  brainlink_device ← scan_for_brainlink T;
  match brainlink_device with
  | None => mret None
  | Some brainlink_device =>
      client ← new_client (address brainlink_device);
      _ ← await (CallConnect client) (connect T (address brainlink_device));
      async_with_exit
        (await (CallDisconnect client) (disconnect T (address brainlink_device)))
        (services ← await (CallGetServices client)
                      (get_services T (address brainlink_device));
         match find_known_service services None with
         | None => mret None
         | Some found_service =>
             _ ← await (CallStartNotify client CHARACTERISTIC_UUID)
                   (start_notify T (address brainlink_device) CHARACTERISTIC_UUID);
             mret (Some client)
         end)
  end.

End Connect.

(** ** Inputs, and the vocabulary of the claims *)

(** The 15-byte notification of the end-to-end scenario. *)
Definition sample_payload : list byte :=
  bytes [170; 0; 0; 0; 0; 0; 0; 0; 77; 55; 128; 64; 255; 10; 0].

(** Its first ten bytes: long enough for the length guard of the rich
    decoder, too short for the band bytes. *)
Definition ten_byte_payload : list byte :=
  bytes [170; 0; 0; 0; 0; 0; 0; 0; 77; 55].

(** A minimal-format packet whose attention byte is above 100. *)
Definition loud_minimal_payload : list byte := bytes [2; 200; 50].

(** An integer field in [lo, hi]. *)
Definition int_field_in (r : gmap string value) (k : string) (lo hi : Z) : Prop :=
  ∃ z, r !! k = Some (VInt z) ∧ lo <= z <= hi.

(** A float field in [0, 100], in binary64 comparisons. *)
Definition float_in_0_100 (f : float) : Prop :=
  PrimFloat.leb 0%float f = true ∧ PrimFloat.leb f 100%float = true.

Definition band_field_ok (r : gmap string value) (k : string) : Prop :=
  ∃ f, r !! k = Some (VFloat f) ∧ float_in_0_100 f.

(** What the data model promises of a rich reading. *)
Definition rich_reading_in_range (r : gmap string value) : Prop :=
  int_field_in r "attention" 0 100 ∧ int_field_in r "meditation" 0 100 ∧
  band_field_ok r "delta" ∧ band_field_ok r "theta" ∧ band_field_ok r "alpha" ∧
  band_field_ok r "beta" ∧ band_field_ok r "gamma".

(** The same promise for a minimal reading, and what the code gives. *)
Definition minimal_reading_within (hi : Z) (r : gmap string value) : Prop :=
  int_field_in r "Attention" 0 hi ∧ int_field_in r "Meditation" 0 hi.

(** The dictionary a complete rich packet decodes to. *)
Definition reading (att med : Z) (de th al be ga : value) (q : Z) (now : float)
  : gmap string value :=
  <[ "timestamp" := VFloat now ]>
    (<[ "signal_quality" := VInt q ]>
      (<[ "gamma" := ga ]> (<[ "beta" := be ]> (<[ "alpha" := al ]>
        (<[ "theta" := th ]> (<[ "delta" := de ]>
          (<[ "meditation" := VInt med ]> (<[ "attention" := VInt att ]> ∅)))))))).

(** The three observations of the estimator, stated on the payload. *)
Definition validSync (data : list byte) : Prop := data !! 0%nat = Some xaa.

Definition hasSignal (data : list byte) : Prop :=
  ∃ i b, (2 <= i)%nat ∧ data !! i = Some b ∧ b ≠ x00.

(** More than two distinct byte values at index 2 or later. *)
Definition hasVariation (data : list byte) : Prop :=
  ∃ i j k bi bj bk,
    (2 <= i)%nat ∧ (2 <= j)%nat ∧ (2 <= k)%nat ∧
    data !! i = Some bi ∧ data !! j = Some bj ∧ data !! k = Some bk ∧
    bi ≠ bj ∧ bi ≠ bk ∧ bj ≠ bk.

(** Payloads for the rows of the score table. *)
Definition flat_payload : list byte := bytes [170; 0; 5; 5; 0].
Definition silent_payload : list byte := bytes [170; 9; 0; 0].
Definition unsynced_payload : list byte := bytes [1; 0; 0; 7].
Definition dead_payload : list byte := bytes [1; 9; 0; 0].

(** [r] is the first element of [l], in order, that satisfies [P]; [None]
    when no element does. *)
Definition first_matching {A : Type} (P : A → Prop) (l : list A) (r : option A)
  : Prop :=
  match r with
  | Some x => ∃ pre post, l = (pre ++ x :: post)%list ∧ P x ∧ ∀ y, y ∈ pre → ¬ P y
  | None => ∀ y, y ∈ l → ¬ P y
  end.

(** [k] occurs in [s] as a contiguous run of characters. *)
Definition substring_of (k s : string) : Prop :=
  ∃ pre post, s = pre +:+ k +:+ post.

(** The keyword policy of [brainconnect.py]: the name is present and its
    lower-cased form contains one of the four keywords. *)
Definition keyword_match (d : BLEDevice) : Prop :=
  ∃ n kw, name d = Some n ∧ kw ∈ ["brainlink"; "brain"; "eeg"; "neuro"] ∧
          substring_of kw (lower n).

(** The stricter policy of [connect.py]: the name is present and contains
    "Brain" as written. *)
Definition strict_match (d : BLEDevice) : Prop :=
  ∃ n, name d = Some n ∧ substring_of "Brain" n.

Definition scanned (n : string) (addr : string) : BLEDevice :=
  {| name := Some n; address := addr |}.

Definition scenario_scan : list BLEDevice :=
  [ {| name := Some "RandomBT"; address := "11:22" |};
    {| name := None; address := "33:44" |};
    scanned "BrainLink Pro" "AA:BB";
    scanned "EEG-Headset" "CC:DD" ].

(** The lookup of a peripheral described by the set of UUIDs it offers:
    the UUID itself when offered, None otherwise; it never raises. *)
Definition lookup_in (available : gset string) (u : string)
  : outcome (option string) :=
  Returned (if decide (u ∈ available) then Some u else None).

(** The set of UUIDs among the services a peripheral reports. *)
Definition available_uuids (services : list BleakGATTService) : gset string :=
  list_to_set (uuid <$> services).

Definition service (u : string) : BleakGATTService :=
  {| uuid := u; characteristics := [] |}.

(** A peripheral that reports 0000ffe0 before 0000fee9. *)
Definition reversed_services : list BleakGATTService :=
  [ service "0000ffe0-0000-1000-8000-00805f9b34fb";
    service "0000fee9-0000-1000-8000-00805f9b34fb" ].

Definition fee9_service : BleakGATTService :=
  {| uuid := "0000fee9-0000-1000-8000-00805f9b34fb";
     characteristics := [ {| char_uuid := "0000fee1-0000-1000-8000-00805f9b34fb" |} ] |}.

(** The stack of the end-to-end scenario: the scan sees RandomBT and
    BrainLink_Pro, every call succeeds, and the peripheral offers 0000fee9
    (with characteristic 0000fee1) and 0000ffe0. *)
Definition scenario_transport : transport :=
  {| discover := Returned [ scanned "RandomBT" "11:22"; scanned "BrainLink_Pro" "AA:BB" ];
     connect := λ _, Returned tt;
     get_services := λ _,
       Returned [ fee9_service; service "0000ffe0-0000-1000-8000-00805f9b34fb" ];
     get_service := λ services u,
       Returned (List.find (λ s, String.eqb (uuid s) u) services);
     get_characteristic := λ s u,
       Returned (List.find (λ c, String.eqb (char_uuid c) u) (characteristics s));
     start_notify := λ _ _, Returned tt;
     disconnect := λ _, Returned tt |}.

(** The same stack, except that its disconnect call raises. *)
Definition stuck_transport : transport :=
  {| discover := discover scenario_transport;
     connect := connect scenario_transport;
     get_services := get_services scenario_transport;
     get_service := get_service scenario_transport;
     get_characteristic := get_characteristic scenario_transport;
     start_notify := start_notify scenario_transport;
     disconnect := λ _, Raised (BleakError "disconnect failed") |}.

(** A fresh process, and the two clients it constructs first. *)
Definition idle_world : world :=
  {| connected_client := None; clients_made := 0; calls := [] |}.
Definition first_client : BleakClient :=
  {| client_id := 0; client_address := "AA:BB" |}.
Definition second_client : BleakClient :=
  {| client_id := 1; client_address := "AA:BB" |}.

(** The process after one successful [connect_to_device()]. *)
Definition active_world : world :=
  snd (BrainConnect.connect_to_device scenario_transport idle_world).

(** The process with the first client stored, as [stuck_transport] finds it. *)
Definition connected_world : world :=
  {| connected_client := Some first_client; clients_made := 1; calls := [] |}.

(** The exact rational value of a finite binary64 number. *)
Definition exact_value (f : float) : option Q :=
  match Prim2SF f with
  | S754_zero _ => Some 0%Q
  | S754_finite sign m e =>
      Some ((if sign then -1 else 1) * (Zpos m # 1) * Qpower 2 e)%Q
  | _ => None
  end.

(** The real number [(raw / 255) * 100]. *)
Definition exact_band (raw : Z) : Q := ((raw # 255) * 100)%Q.

(** The 256 bytes, in increasing order. *)
Definition all_bytes : list byte := byte_of_int <$> (Z.of_nat <$> seq 0 256).

(** On a pair of bytes in increasing order, the bands are floats in
    strictly increasing order. *)
Definition bands_increase (b1 b2 : byte) : bool :=
  if int_of_byte b1 <? int_of_byte b2 then
    match BrainConnect.band (int_of_byte b1), BrainConnect.band (int_of_byte b2) with
    | VFloat f1, VFloat f2 => PrimFloat.ltb f1 f2
    | _, _ => false
    end
  else true.

(** The keys of a rich reading. *)
Definition READING_KEYS : gset string :=
  {[ "attention"; "meditation"; "delta"; "theta"; "alpha"; "beta"; "gamma";
     "signal_quality"; "timestamp" ]}.


(** * Properties *)

(** ** The decoders *)

Section Decoder.

Lemma int_of_byte_range (b : byte) : 0 <= int_of_byte b <= 255.
Proof.
  unfold int_of_byte. pose proof (Byte.to_N_bounded b). lia.
Qed.

Lemma clamp_range (z : Z) : 0 <= min_int (max_int z 0) 100 <= 100.
Proof.
  unfold min_int, max_int.
  destruct (0 >? z) eqn:E0; destruct (100 <? _) eqn:E1; lia.
Qed.

(** On a byte the clamp is [min(raw, 100)]: the lower bound never acts. *)
Lemma clamp_byte (b : byte) :
  min_int (max_int (int_of_byte b) 0) 100 = Z.min (int_of_byte b) 100.
Proof.
  pose proof (int_of_byte_range b). unfold min_int, max_int.
  destruct (0 >? _) eqn:E0; destruct (100 <? _) eqn:E1; lia.
Qed.

(** Every band of a byte is a float, never the int 100 of the clamp, and
    lies in [0, 100]: all 256 bytes are evaluated. *)
Lemma band_byte (b : byte) :
  ∃ f, BrainConnect.band (int_of_byte b) = VFloat f ∧ float_in_0_100 f.
Proof.
  destruct b; vm_compute; eexists; (split; [reflexivity | split; reflexivity]).
Qed.

Lemma getitem_here (b : byte) (data : list byte) :
  getitem (b :: data) 0 = Returned (int_of_byte b).
Proof. reflexivity. Qed.

Lemma getitem_later (b : byte) (data : list byte) (i : nat) :
  getitem (b :: data) (S i) = getitem data i.
Proof. reflexivity. Qed.

End Decoder.

Section RichDecoder.

Lemma reading_fields att med de th al be ga q now :
  let r := reading att med de th al be ga q now in
  r !! "attention" = Some (VInt att) ∧ r !! "meditation" = Some (VInt med) ∧
  r !! "delta" = Some de ∧ r !! "theta" = Some th ∧ r !! "alpha" = Some al ∧
  r !! "beta" = Some be ∧ r !! "gamma" = Some ga ∧
  r !! "signal_quality" = Some (VInt q) ∧ r !! "timestamp" = Some (VFloat now) ∧
  r !! "error" = None.
Proof. vm_compute. repeat split. Qed.

(** The three regimes of [parse_brainlink_data], by payload length. *)
Lemma parse_rich_short data now :
  (length data < 10)%nat →
  BrainConnect.parse_brainlink_data data now
  = Returned {[ "error" := VStr "Incomplete data" ]}.
Proof.
  intros H. unfold BrainConnect.parse_brainlink_data.
  now rewrite (proj2 (Nat.ltb_lt _ _) H).
Qed.

Lemma parse_rich_truncated data now :
  (10 <= length data < 15)%nat →
  BrainConnect.parse_brainlink_data data now = Raised IndexError.
Proof.
  intros [Hlo Hhi]. unfold BrainConnect.parse_brainlink_data.
  rewrite (proj2 (Nat.ltb_ge _ _) Hlo).
  do 10 (destruct data as [|? data]; [simpl in Hlo; lia|]).
  do 5 (destruct data as [|? data]; [reflexivity|]).
  simpl in Hhi. lia.
Qed.

Lemma parse_rich_complete data now :
  (15 <= length data)%nat →
  ∃ b8 b9 b10 b11 b12 b13 b14,
    data !! 8%nat = Some b8 ∧ data !! 9%nat = Some b9 ∧
    data !! 10%nat = Some b10 ∧ data !! 11%nat = Some b11 ∧
    data !! 12%nat = Some b12 ∧ data !! 13%nat = Some b13 ∧
    data !! 14%nat = Some b14 ∧
    BrainConnect.parse_brainlink_data data now
    = Returned (reading (Z.min (int_of_byte b8) 100) (Z.min (int_of_byte b9) 100)
                  (BrainConnect.band (int_of_byte b10))
                  (BrainConnect.band (int_of_byte b11))
                  (BrainConnect.band (int_of_byte b12))
                  (BrainConnect.band (int_of_byte b13))
                  (BrainConnect.band (int_of_byte b14))
                  (BrainConnect.calculate_signal_quality data) now).
Proof.
  intros H. unfold BrainConnect.parse_brainlink_data.
  assert (Hlen : (10 <= length data)%nat) by lia.
  rewrite (proj2 (Nat.ltb_ge _ _) Hlen). clear Hlen.
  do 15 (destruct data as [|? data]; [simpl in H; lia|]).
  do 7 eexists. repeat (split; [reflexivity|]).
  rewrite !getitem_later, !getitem_here. cbn [mbind outcome_bind].
  now rewrite !clamp_byte.
Qed.

Lemma reading_in_range b8 b9 b10 b11 b12 b13 b14 q now :
  rich_reading_in_range
    (reading (Z.min (int_of_byte b8) 100) (Z.min (int_of_byte b9) 100)
       (BrainConnect.band (int_of_byte b10)) (BrainConnect.band (int_of_byte b11))
       (BrainConnect.band (int_of_byte b12)) (BrainConnect.band (int_of_byte b13))
       (BrainConnect.band (int_of_byte b14)) q now).
Proof.
  pose proof (int_of_byte_range b8). pose proof (int_of_byte_range b9).
  destruct (band_byte b10) as (f10 & -> & ?), (band_byte b11) as (f11 & -> & ?),
    (band_byte b12) as (f12 & -> & ?), (band_byte b13) as (f13 & -> & ?),
    (band_byte b14) as (f14 & -> & ?).
  match goal with |- rich_reading_in_range ?r =>
    pose proof (reading_fields (Z.min (int_of_byte b8) 100)
      (Z.min (int_of_byte b9) 100) (VFloat f10) (VFloat f11) (VFloat f12)
      (VFloat f13) (VFloat f14) q now) as F end.
  cbv zeta in F. destruct F as (Fa & Fm & Fd & Ft & Fal & Fb & Fg & _).
  unfold rich_reading_in_range, int_field_in, band_field_ok.
  repeat split; eauto; eexists; (split; [eassumption | lia]).
Qed.

End RichDecoder.

Section MinimalDecoder.

Lemma parse_minimal_short data :
  (length data < 3)%nat → Connect.parse_brainlink_data data = Returned None.
Proof.
  intros H. unfold Connect.parse_brainlink_data.
  now rewrite (proj2 (Nat.ltb_lt _ _) H).
Qed.

Lemma parse_minimal_complete data :
  (3 <= length data)%nat →
  ∃ b1 b2, data !! 1%nat = Some b1 ∧ data !! 2%nat = Some b2 ∧
    Connect.parse_brainlink_data data
    = Returned (Some {[ "Attention" := VInt (int_of_byte b1);
                        "Meditation" := VInt (int_of_byte b2) ]}).
Proof.
  intros H. unfold Connect.parse_brainlink_data.
  rewrite (proj2 (Nat.ltb_ge _ _) H).
  do 3 (destruct data as [|? data]; [simpl in H; lia|]).
  do 2 eexists. repeat (split; [reflexivity|]). reflexivity.
Qed.

Lemma minimal_fields (a m : Z) :
  let r : gmap string value := {[ "Attention" := VInt a; "Meditation" := VInt m ]} in
  r !! "Attention" = Some (VInt a) ∧ r !! "Meditation" = Some (VInt m) ∧
  ∀ k, k ≠ "Attention" → k ≠ "Meditation" → r !! k = None.
Proof.
  cbv zeta. repeat split.
  intros k H1 H2. rewrite lookup_insert_ne by congruence.
  now rewrite lookup_singleton_ne by congruence.
Qed.

End MinimalDecoder.

(** ** Claims about the decoders *)

(** C1, at the input where it fails: a payload of ten bytes passes the
    length guard of the rich decoder ([len(data) < 10] is false), and the
    decoder then reads [data[10]], which is out of range: it raises
    [IndexError] and returns no reading. *)
Theorem C1_ten_byte_payload_raises (now : float) :
  length ten_byte_payload = 10%nat ∧
  BrainConnect.parse_brainlink_data ten_byte_payload now = Raised IndexError.
Proof. split; reflexivity. Qed.

(** C2: on every payload of nine bytes or fewer the rich decoder returns the
    dictionary whose only entry is the error "Incomplete data"; no decoded
    field is present in it. *)
Theorem C2_short_payload_is_incomplete_data (data : list byte) (now : float) :
  (length data <= 9)%nat →
  ∃ r, BrainConnect.parse_brainlink_data data now = Returned r ∧
       r = {[ "error" := VStr "Incomplete data" ]} ∧
       r !! "error" = Some (VStr "Incomplete data") ∧
       ∀ k, k ≠ "error" → r !! k = None.
Proof.
  intros H. eexists. split; [apply parse_rich_short; lia|].
  split; [reflexivity|]. split; [reflexivity|].
  intros k Hk. now rewrite lookup_singleton_ne by congruence.
Qed.

(** The first nine bytes of the sample payload are reported incomplete. *)
Lemma C2_short_payload_is_incomplete_data_witness :
  (length (take 9 sample_payload) <= 9)%nat ∧
  ∃ r, BrainConnect.parse_brainlink_data (take 9 sample_payload) 0%float = Returned r ∧
       r = {[ "error" := VStr "Incomplete data" ]} ∧
       r !! "error" = Some (VStr "Incomplete data") ∧
       ∀ k, k ≠ "error" → r !! k = None.
Proof.
  split; [vm_compute; lia|].
  apply (C2_short_payload_is_incomplete_data (take 9 sample_payload) 0%float).
  vm_compute; lia.
Defined.

(** C8: the 15-byte payload of the end-to-end scenario decodes to attention
    77, meditation 55, delta (128/255)*100, theta (64/255)*100, alpha 100,
    beta (10/255)*100, gamma 0 and signal quality 95, stamped with the clock
    reading; in binary64 the three inexact bands round to 50.2, 25.1 and 3.9
    at one decimal. *)
Theorem C8_sample_payload_decodes (now : float) :
  let delta := mul_float_int (truediv 128 255) 100 in
  let theta := mul_float_int (truediv 64 255) 100 in
  let beta := mul_float_int (truediv 10 255) 100 in
  BrainConnect.parse_brainlink_data sample_payload now
  = Returned (reading 77 55 (VFloat delta) (VFloat theta) (VFloat 100%float)
                (VFloat beta) (VFloat 0%float) 95 now) ∧
  BrainConnect.calculate_signal_quality sample_payload = 95 ∧
  mul_float_int (truediv 255 255) 100 = 100%float ∧
  mul_float_int (truediv 0 255) 100 = 0%float ∧
  (PrimFloat.ltb 50.15%float delta && PrimFloat.ltb delta 50.25%float = true) ∧
  (PrimFloat.ltb 25.05%float theta && PrimFloat.ltb theta 25.15%float = true) ∧
  (PrimFloat.ltb 3.85%float beta && PrimFloat.ltb beta 3.95%float = true).
Proof. vm_compute. repeat split. Qed.

(** C9: the minimal decoder rejects every payload shorter than three bytes
    (it returns None) and decodes every longer one to the dictionary with
    exactly the two entries Attention = byte 1 and Meditation = byte 2. *)
Theorem C9_minimal_profile (data : list byte) :
  ((length data < 3)%nat → Connect.parse_brainlink_data data = Returned None) ∧
  ((3 <= length data)%nat →
   ∃ b1 b2 r,
     data !! 1%nat = Some b1 ∧ data !! 2%nat = Some b2 ∧
     Connect.parse_brainlink_data data = Returned (Some r) ∧
     r !! "Attention" = Some (VInt (int_of_byte b1)) ∧
     r !! "Meditation" = Some (VInt (int_of_byte b2)) ∧
     ∀ k, k ≠ "Attention" → k ≠ "Meditation" → r !! k = None).
Proof.
  split; [apply parse_minimal_short|].
  intros H. destruct (parse_minimal_complete data H) as (b1 & b2 & H1 & H2 & E).
  exists b1, b2. eexists. repeat (split; [eassumption|]).
  apply minimal_fields.
Qed.

(** A two-byte packet is rejected; [2, 200, 50] decodes to 200 and 50. *)
Lemma C9_minimal_profile_witness :
  Connect.parse_brainlink_data (bytes [2; 40]) = Returned None ∧
  ∃ r, Connect.parse_brainlink_data loud_minimal_payload = Returned (Some r) ∧
       r !! "Attention" = Some (VInt 200) ∧ r !! "Meditation" = Some (VInt 50).
Proof.
  split.
  - apply (C9_minimal_profile (bytes [2; 40])). vm_compute; lia.
  - destruct (proj2 (C9_minimal_profile loud_minimal_payload))
      as (b1 & b2 & r & H1 & H2 & E & Ha & Hm & _); [vm_compute; lia|].
    exists r. split; [exact E|].
    injection H1 as <-. injection H2 as <-. split; assumption.
Defined.

(** C7, where it fails: the minimal decoder passes the attention byte on
    unclamped, so the packet [2, 200, 50] yields a reading whose attention is
    200, outside [0, 100]. *)
Lemma C7_minimal_reading_exceeds_100 :
  ∃ r, Connect.parse_brainlink_data loud_minimal_payload = Returned (Some r) ∧
       r !! "Attention" = Some (VInt 200) ∧
       ¬ minimal_reading_within 100 r.
Proof.
  eexists. split; [reflexivity|]. split; [reflexivity|].
  intros [(z & Hz & Hr) _]. vm_compute in Hz. injection Hz as <-. lia.
Qed.

(** C7, amended: every reading the rich decoder produces has attention and
    meditation integers in [0, 100] and its five bands floats in [0, 100];
    every reading the minimal decoder produces has Attention and Meditation
    integers in [0, 255], the raw bytes. *)
Theorem C7_readings_in_range :
  (∀ data now r,
     BrainConnect.parse_brainlink_data data now = Returned r →
     r !! "error" = None →
     rich_reading_in_range r) ∧
  (∀ data r,
     Connect.parse_brainlink_data data = Returned (Some r) →
     minimal_reading_within 255 r).
Proof.
  split.
  - intros data now r E Herr.
    destruct (Nat.lt_ge_cases (length data) 10) as [Hs|Hs].
    { rewrite (parse_rich_short data now Hs) in E. injection E as <-.
      vm_compute in Herr. discriminate. }
    destruct (Nat.lt_ge_cases (length data) 15) as [Ht|Ht].
    { rewrite (parse_rich_truncated data now (conj Hs Ht)) in E. discriminate. }
    destruct (parse_rich_complete data now Ht)
      as (b8 & b9 & b10 & b11 & b12 & b13 & b14 & _ & _ & _ & _ & _ & _ & _ & E').
    rewrite E' in E. injection E as <-. apply reading_in_range.
  - intros data r E.
    destruct (Nat.lt_ge_cases (length data) 3) as [Hs|Hs].
    { rewrite (parse_minimal_short data Hs) in E. discriminate. }
    destruct (parse_minimal_complete data Hs) as (b1 & b2 & _ & _ & E').
    rewrite E' in E. injection E as <-.
    destruct (minimal_fields (int_of_byte b1) (int_of_byte b2)) as (Ha & Hm & _).
    pose proof (int_of_byte_range b1). pose proof (int_of_byte_range b2).
    split; eexists; (split; [eassumption | lia]).
Qed.

(** The sample payload and the packet [2, 200, 50] are within the bounds. *)
Lemma C7_readings_in_range_witness :
  (∃ r, BrainConnect.parse_brainlink_data sample_payload 0%float = Returned r ∧
        rich_reading_in_range r) ∧
  (∃ r, Connect.parse_brainlink_data loud_minimal_payload = Returned (Some r) ∧
        minimal_reading_within 255 r).
Proof.
  split.
  - eexists. split; [reflexivity|].
    apply (proj1 C7_readings_in_range sample_payload 0%float); reflexivity.
  - eexists. split; [reflexivity|].
    apply (proj2 C7_readings_in_range loud_minimal_payload); reflexivity.
Defined.

(** ** The signal-quality estimator *)

Section SignalQuality.

Lemma int_of_byte_inj (a b : byte) : int_of_byte a = int_of_byte b → a = b.
Proof.
  unfold int_of_byte. intros H. apply N2Z.inj in H.
  pose proof (Byte.of_to_N a) as Ha. rewrite H, Byte.of_to_N in Ha. congruence.
Qed.

#[local] Instance int_of_byte_Inj : Inj (=) (=) int_of_byte.
Proof. intros a b. apply int_of_byte_inj. Qed.

Lemma sync_byte (b : byte) : (int_of_byte b =? 170) = true ↔ b = xaa.
Proof.
  rewrite Z.eqb_eq. split; [|now intros ->].
  intros H. now apply int_of_byte_inj.
Qed.

Lemma positive_byte (b : byte) : (int_of_byte b >? 0) = true ↔ b ≠ x00.
Proof.
  rewrite Z.gtb_gt. pose proof (int_of_byte_range b). split.
  - intros H0 ->. vm_compute in H0. discriminate.
  - intros Hb. destruct (Z.eq_dec (int_of_byte b) 0) as [E|]; [|lia].
    exfalso. apply Hb. now apply int_of_byte_inj.
Qed.

Lemma lookup_from_2 (data : list byte) (b : byte) :
  b ∈ slice_from 2 data ↔ ∃ i, (2 <= i)%nat ∧ data !! i = Some b.
Proof.
  unfold slice_from. rewrite list_elem_of_lookup. split.
  - intros [i Hi]. rewrite lookup_drop in Hi. exists (2 + i)%nat. split; [lia|done].
  - intros (i & Hi & Hb). exists (i - 2)%nat. rewrite lookup_drop.
    now replace (2 + (i - 2))%nat with i by lia.
Qed.

Lemma any_positive_hasSignal (data : list byte) :
  any_positive (slice_from 2 data) = true ↔ hasSignal data.
Proof.
  unfold any_positive, hasSignal. rewrite existsb_exists. split.
  - intros (b & Hin & Hb). apply list_elem_of_In, lookup_from_2 in Hin.
    destruct Hin as (i & Hi & Hl). exists i, b. now rewrite <- positive_byte.
  - intros (i & b & Hi & Hl & Hb). exists b. split.
    + apply list_elem_of_In, lookup_from_2. eauto.
    + now apply positive_byte.
Qed.

(** A finite set has more than two members exactly when three of its
    members are pairwise distinct. *)
Lemma size_above_2 (s : gset Z) :
  (2 < size s)%nat ↔ ∃ x y z, x ∈ s ∧ y ∈ s ∧ z ∈ s ∧ x ≠ y ∧ x ≠ z ∧ y ≠ z.
Proof.
  split.
  - intros H. unfold size, set_size in H. simpl in H.
    pose proof (NoDup_elements s) as ND.
    destruct (elements s) as [|x [|y [|z rest]]] eqn:E; simpl in H; try lia.
    exists x, y, z.
    assert (Hin : ∀ a, a ∈ x :: y :: z :: rest → a ∈ s)
      by (intros a; rewrite <- E; apply elem_of_elements).
    apply NoDup_cons in ND as [Hx ND]. apply NoDup_cons in ND as [Hy _].
    repeat split; try (apply Hin; set_solver); set_solver.
  - intros (x & y & z & Hx & Hy & Hz & Hxy & Hxz & Hyz).
    assert (Hsub : ({[x]} ∪ ({[y]} ∪ {[z]}) : gset Z) ⊆ s).
    { intros a Ha. rewrite !elem_of_union, !elem_of_singleton in Ha.
      destruct Ha as [->|[->| ->]]; assumption. }
    apply subseteq_size in Hsub.
    rewrite size_union in Hsub.
    2:{ apply disjoint_singleton_l. rewrite elem_of_union, !elem_of_singleton.
        intros [?|?]; congruence. }
    rewrite size_union in Hsub.
    2:{ apply disjoint_singleton_l. rewrite elem_of_singleton. congruence. }
    rewrite !size_singleton in Hsub. lia.
Qed.

Lemma len_set_hasVariation (data : list byte) :
  (2 <? len_set (slice_from 2 data))%nat = true ↔ hasVariation data.
Proof.
  rewrite Nat.ltb_lt. unfold len_set. rewrite size_above_2. split.
  - intros (x & y & z & Hx & Hy & Hz & Hxy & Hxz & Hyz).
    rewrite elem_of_list_to_set, list_elem_of_fmap in Hx, Hy, Hz.
    destruct Hx as (bi & -> & Hi), Hy as (bj & -> & Hj), Hz as (bk & -> & Hk).
    apply lookup_from_2 in Hi, Hj, Hk.
    destruct Hi as (i & Hi & Li), Hj as (j & Hj & Lj), Hk as (k & Hk & Lk).
    exists i, j, k, bi, bj, bk. repeat split; try assumption; congruence.
  - intros (i & j & k & bi & bj & bk & Hi & Hj & Hk & Li & Lj & Lk & Hij & Hik & Hjk).
    exists (int_of_byte bi), (int_of_byte bj), (int_of_byte bk).
    rewrite !elem_of_list_to_set, !list_elem_of_fmap_inj by apply _.
    rewrite !lookup_from_2.
    repeat split; eauto; intros E; apply int_of_byte_inj in E; contradiction.
Qed.

Lemma sync_validSync (data : list byte) :
  match data !! 0%nat with
  | Some b => int_of_byte b =? 170
  | None => false
  end = true ↔ validSync data.
Proof.
  unfold validSync. destruct (data !! 0%nat) as [b|]; [|split; discriminate].
  rewrite sync_byte. split; congruence.
Qed.

End SignalQuality.

(** C3: the estimator returns 30 on a payload of fewer than two bytes, and
    otherwise the first matching row of the table over validSync, hasSignal
    and hasVariation: all three give 95; validSync and hasSignal without
    variation give 80; validSync without signal gives 60; hasSignal without
    validSync gives 40; neither gives 20. *)
Theorem C3_signal_quality_table (data : list byte) :
  ((length data < 2)%nat → BrainConnect.calculate_signal_quality data = 30) ∧
  ((2 <= length data)%nat →
   (validSync data ∧ hasSignal data ∧ hasVariation data →
    BrainConnect.calculate_signal_quality data = 95) ∧
   (validSync data ∧ hasSignal data ∧ ¬ hasVariation data →
    BrainConnect.calculate_signal_quality data = 80) ∧
   (validSync data ∧ ¬ hasSignal data →
    BrainConnect.calculate_signal_quality data = 60) ∧
   (¬ validSync data ∧ hasSignal data →
    BrainConnect.calculate_signal_quality data = 40) ∧
   (¬ validSync data ∧ ¬ hasSignal data →
    BrainConnect.calculate_signal_quality data = 20)).
Proof.
  unfold BrainConnect.calculate_signal_quality. split.
  - intros H. now rewrite (proj2 (Nat.ltb_lt _ _) H).
  - intros H. rewrite (proj2 (Nat.ltb_ge _ _) H). cbv zeta.
    pose proof (sync_validSync data) as Hs.
    pose proof (any_positive_hasSignal data) as Hn.
    pose proof (len_set_hasVariation data) as Hv.
    destruct (match data !! 0%nat with Some b => _ | None => _ end);
      destruct (any_positive _); destruct (_ <? _)%nat; simpl;
      repeat split; intros; try reflexivity; exfalso;
      intuition discriminate.
Qed.

(** One payload for the short case and one for each row of the table. *)
Lemma C3_signal_quality_table_witness :
  BrainConnect.calculate_signal_quality (bytes [170]) = 30 ∧
  BrainConnect.calculate_signal_quality sample_payload = 95 ∧
  BrainConnect.calculate_signal_quality flat_payload = 80 ∧
  BrainConnect.calculate_signal_quality silent_payload = 60 ∧
  BrainConnect.calculate_signal_quality unsynced_payload = 40 ∧
  BrainConnect.calculate_signal_quality dead_payload = 20.
Proof.
  assert (two : ∀ n : nat, (2 <= S (S n))%nat) by (intros; lia).
  split; [|split; [|split; [|split; [|split]]]].
  - apply (C3_signal_quality_table (bytes [170])). vm_compute; lia.
  - apply (proj2 (C3_signal_quality_table sample_payload)); [apply two|].
    split; [reflexivity|]. split.
    + apply any_positive_hasSignal. reflexivity.
    + apply len_set_hasVariation. reflexivity.
  - apply (proj2 (C3_signal_quality_table flat_payload)); [apply two|].
    split; [reflexivity|]. split.
    + apply any_positive_hasSignal. reflexivity.
    + rewrite <- len_set_hasVariation. vm_compute. discriminate.
  - apply (proj2 (C3_signal_quality_table silent_payload)); [apply two|].
    split; [reflexivity|].
    rewrite <- any_positive_hasSignal. vm_compute. discriminate.
  - apply (proj2 (C3_signal_quality_table unsynced_payload)); [apply two|].
    split.
    + unfold validSync. vm_compute. discriminate.
    + apply any_positive_hasSignal. reflexivity.
  - apply (proj2 (C3_signal_quality_table dead_payload)); [apply two|].
    split.
    + unfold validSync. vm_compute. discriminate.
    + rewrite <- any_positive_hasSignal. vm_compute. discriminate.
Defined.

(** ** First match in a sequence *)

Section FirstMatch.
Context {A : Type}.

Lemma first_matching_nil (P : A → Prop) : first_matching P [] None.
Proof. intros y Hy. inversion Hy. Qed.

Lemma first_matching_here (P : A → Prop) (x : A) (l : list A) :
  P x → first_matching P (x :: l) (Some x).
Proof.
  intros Hx. exists [], l. split; [reflexivity|]. split; [assumption|].
  intros y Hy. inversion Hy.
Qed.

Lemma first_matching_later (P : A → Prop) (x : A) (l : list A) (r : option A) :
  ¬ P x → first_matching P l r → first_matching P (x :: l) r.
Proof.
  intros Hx. destruct r as [z|]; simpl.
  - intros (pre & post & -> & Hz & Hpre). exists (x :: pre), post.
    split; [reflexivity|]. split; [assumption|].
    intros y Hy. apply elem_of_cons in Hy as [->|Hy]; auto.
  - intros Hl y Hy. apply elem_of_cons in Hy as [->|Hy]; auto.
Qed.

(** The first match is unique. *)
Lemma first_matching_unique (P : A → Prop) (l : list A) (r1 r2 : option A) :
  first_matching P l r1 → first_matching P l r2 → r1 = r2.
Proof.
  revert r1 r2. induction l as [|x l IH]; intros r1 r2 H1 H2.
  - destruct r1 as [a|]; [destruct H1 as ([|? ?] & ? & ? & _); discriminate|].
    destruct r2 as [a|]; [destruct H2 as ([|? ?] & ? & ? & _); discriminate|].
    reflexivity.
  - assert (step : ∀ r, first_matching P (x :: l) r →
              (P x ∧ r = Some x) ∨ (¬ P x ∧ first_matching P l r)).
    { intros [a|]; simpl.
      - intros ([|y pre] & post & E & Ha & Hpre); simpl in E;
          injection E as <- ->.
        + left. split; [assumption | reflexivity].
        + right. split; [apply Hpre; left|].
          exists pre, post. split; [reflexivity|]. split; [assumption|].
          intros z Hz. apply Hpre. now right.
      - intros Hl. right. split; [apply Hl; left|].
        intros y Hy. apply Hl. now right. }
    destruct (step r1 H1) as [[Hx ->]|[Hx H1']],
             (step r2 H2) as [[Hx' ->]|[Hx' H2']];
      try reflexivity; try contradiction.
    now apply IH.
Qed.

End FirstMatch.

(** ** Substrings *)

Section Strings.

Lemma append_nil (s : string) : "" +:+ s = s.
Proof. reflexivity. Qed.

Lemma append_cons (a : ascii) (s t : string) :
  String a s +:+ t = String a (s +:+ t).
Proof. reflexivity. Qed.

Lemma startswith_spec (p s : string) :
  startswith p s = true ↔ ∃ post, s = p +:+ post.
Proof.
  revert s. induction p as [|a p IH]; intros s; simpl.
  - split; [intros _; now exists s | reflexivity].
  - destruct s as [|b s].
    + split; [discriminate | intros [post H]; rewrite append_cons in H; discriminate].
    + destruct (Ascii.eqb_spec a b) as [->|Hab].
      * rewrite IH. split; intros [post H]; exists post;
          rewrite append_cons in *; congruence.
      * split; [discriminate | intros [post H]; rewrite append_cons in H; congruence].
Qed.

Lemma contains_spec (k s : string) : contains k s = true ↔ substring_of k s.
Proof.
  unfold substring_of. induction s as [|c s IH].
  - simpl. rewrite orb_false_r, startswith_spec. split.
    + intros [post H]. now exists "", post.
    + intros ([|? ?] & post & H); [now exists post|].
      rewrite append_cons in H. discriminate.
  - cbn [contains]. rewrite orb_true_iff, startswith_spec, IH. split.
    + intros [[post H]|(pre & post & H)].
      * now exists "", post.
      * exists (String c pre), post. rewrite append_cons. congruence.
    + intros ([|c' pre] & post & H).
      * left. now exists post.
      * right. exists pre, post. rewrite append_cons in H. congruence.
Qed.

End Strings.

(** ** The device matcher *)

Section DeviceMatcher.

Lemma keyword_is_brainlink (d : BLEDevice) :
  BrainConnect.is_brainlink d = true ↔ keyword_match d.
Proof.
  unfold BrainConnect.is_brainlink, keyword_match, BrainConnect.NAME_KEYWORDS.
  rewrite existsb_exists. split.
  - intros (kw & Hin & Hc). destruct (name d) as [n|].
    + exists n, kw. split; [reflexivity|]. split; [now apply list_elem_of_In|].
      apply contains_spec. now destruct n.
    + exfalso. simpl in Hin.
      destruct Hin as [<-|[<-|[<-|[<-|[]]]]]; discriminate.
  - intros (n & kw & -> & Hin & Hs). exists kw.
    split; [now apply list_elem_of_In|].
    apply contains_spec. now destruct n.
Qed.

Lemma strict_is_brainlink (d : BLEDevice) :
  Connect.is_brainlink d = true ↔ strict_match d.
Proof.
  unfold Connect.is_brainlink, strict_match. split.
  - destruct (name d) as [n|]; [|discriminate].
    intros H. apply andb_true_iff in H as [_ H]. exists n.
    split; [reflexivity | now apply contains_spec].
  - intros (n & -> & Hs). apply contains_spec in Hs. rewrite Hs.
    destruct n; [discriminate | reflexivity].
Qed.

(** A loop that returns the first element passing a test. *)
Lemma first_loop {A : Type} (test : A → bool) (P : A → Prop)
    (loop : list A → option A) :
  (∀ x, test x = true ↔ P x) →
  loop [] = None →
  (∀ x l, loop (x :: l) = if test x then Some x else loop l) →
  ∀ l, first_matching P l (loop l).
Proof.
  intros Htest Hnil Hcons l. induction l as [|x l IH].
  - rewrite Hnil. apply first_matching_nil.
  - rewrite Hcons. destruct (test x) eqn:E.
    + apply first_matching_here, Htest, E.
    + apply first_matching_later; [|exact IH].
      rewrite <- Htest, E. discriminate.
Qed.

Lemma brainconnect_first (devices : list BLEDevice) :
  first_matching keyword_match devices (BrainConnect.first_brainlink devices).
Proof.
  apply (first_loop BrainConnect.is_brainlink); auto using keyword_is_brainlink.
Qed.

Lemma connect_first (devices : list BLEDevice) :
  first_matching strict_match devices (Connect.match_devices devices).
Proof.
  apply (first_loop Connect.is_brainlink); auto using strict_is_brainlink.
  intros x [|y l]; reflexivity.
Qed.

End DeviceMatcher.

(** C5: on every sequence of scan results both matchers return the first
    result, in scan order, that matches their policy (keyword, case
    insensitive, in [brainconnect.py]; the exact substring "Brain" in
    [connect.py]) and return None on an empty sequence or when nothing
    matches; [find_device] and [scan_for_brainlink] return that result of
    the scan they await.  A device named "BrainLink Pro" matches both
    policies and is returned when nothing before it matches; "EEG-Headset"
    matches the keyword "eeg". *)
Theorem C5_device_matcher (devices : list BLEDevice) :
  first_matching keyword_match devices (BrainConnect.first_brainlink devices) ∧
  first_matching strict_match devices (Connect.match_devices devices) ∧
  (∀ T w, discover T = Returned devices →
     BrainConnect.find_device T w
       = (Returned (BrainConnect.first_brainlink devices), log CallDiscover w) ∧
     Connect.scan_for_brainlink T w
       = (Returned (Connect.match_devices devices), log CallDiscover w)) ∧
  BrainConnect.first_brainlink [] = None ∧ Connect.match_devices [] = None ∧
  (∀ addr pre post, devices = (pre ++ scanned "BrainLink Pro" addr :: post)%list →
     ((∀ y, y ∈ pre → ¬ keyword_match y) →
      BrainConnect.first_brainlink devices = Some (scanned "BrainLink Pro" addr)) ∧
     ((∀ y, y ∈ pre → ¬ strict_match y) →
      Connect.match_devices devices = Some (scanned "BrainLink Pro" addr))) ∧
  (∀ addr, substring_of "eeg" (lower "EEG-Headset") ∧
           keyword_match (scanned "EEG-Headset" addr) ∧
           BrainConnect.first_brainlink [scanned "EEG-Headset" addr]
             = Some (scanned "EEG-Headset" addr)).
Proof.
  split; [apply brainconnect_first|]. split; [apply connect_first|].
  split.
  { intros T w HT. unfold BrainConnect.find_device, Connect.scan_for_brainlink.
    unfold mbind, io_bind, await, mret, io_ret. now rewrite HT. }
  split; [reflexivity|]. split; [reflexivity|]. split.
  - intros addr pre post ->. split; intros Hpre.
    + apply (first_matching_unique keyword_match
               (pre ++ scanned "BrainLink Pro" addr :: post)%list);
        [apply brainconnect_first|].
      exists pre, post. split; [reflexivity|]. split; [|assumption].
      now apply keyword_is_brainlink.
    + apply (first_matching_unique strict_match
               (pre ++ scanned "BrainLink Pro" addr :: post)%list);
        [apply connect_first|].
      exists pre, post. split; [reflexivity|]. split; [|assumption].
      now apply strict_is_brainlink.
  - intros addr. split; [now apply contains_spec|].
    split; [now apply keyword_is_brainlink | reflexivity].
Qed.

(** In the scenario scan both matchers pass over RandomBT and the unnamed
    device and return BrainLink Pro. *)
Lemma C5_device_matcher_witness :
  BrainConnect.first_brainlink scenario_scan = Some (scanned "BrainLink Pro" "AA:BB") ∧
  Connect.match_devices scenario_scan = Some (scanned "BrainLink Pro" "AA:BB").
Proof.
  destruct (C5_device_matcher scenario_scan) as (_ & _ & _ & _ & _ & H & _).
  destruct (H "AA:BB" (take 2 scenario_scan) (drop 3 scenario_scan) eq_refl)
    as [Hk Hs].
  split; [apply Hk | apply Hs]; intros y Hy;
    apply elem_of_cons in Hy as [->|Hy];
    try (apply elem_of_cons in Hy as [->|Hy]); try (now inversion Hy).
  - rewrite <- keyword_is_brainlink. vm_compute. discriminate.
  - rewrite <- keyword_is_brainlink. vm_compute. discriminate.
  - rewrite <- strict_is_brainlink. vm_compute. discriminate.
  - rewrite <- strict_is_brainlink. vm_compute. discriminate.
Defined.

(** ** The service resolver *)

Section Resolver.
Context {A : Type} (lookup : string → outcome (option A)).

(** The loop variable is only ever None while the loop runs on. *)
Lemma resolve_from_None (candidates : list string) :
  BrainConnect.resolve_from lookup candidates None = None ↔
  ∀ u, u ∈ candidates → ∀ x, lookup u ≠ Returned (Some x).
Proof.
  induction candidates as [|u rest IH]; simpl.
  - split; [intros _ u Hu; inversion Hu | reflexivity].
  - destruct (lookup u) as [[x|]|e] eqn:E.
    + split; [discriminate|]. intros H. exfalso.
      apply (H u ltac:(left) x E).
    + rewrite IH. split.
      * intros H v Hv y. apply elem_of_cons in Hv as [->|Hv]; [congruence | auto].
      * intros H v Hv. apply H. now right.
    + rewrite IH. split.
      * intros H v Hv y. apply elem_of_cons in Hv as [->|Hv]; [congruence | auto].
      * intros H v Hv. apply H. now right.
Qed.

Lemma resolve_from_Some (candidates : list string) (x : A) :
  BrainConnect.resolve_from lookup candidates None = Some x ↔
  ∃ pre u post, candidates = (pre ++ u :: post)%list ∧
                lookup u = Returned (Some x) ∧
                ∀ v, v ∈ pre → ∀ y, lookup v ≠ Returned (Some y).
Proof.
  induction candidates as [|u rest IH]; simpl.
  - split; [discriminate | intros ([|? ?] & ? & ? & ? & _); discriminate].
  - assert (skip : (∀ y, lookup u ≠ Returned (Some y)) →
      (BrainConnect.resolve_from lookup rest None = Some x ↔
       ∃ pre v post, u :: rest = (pre ++ v :: post)%list ∧
                     lookup v = Returned (Some x) ∧
                     ∀ v', v' ∈ pre → ∀ y, lookup v' ≠ Returned (Some y))).
    { intros Hu. rewrite IH. split.
      - intros (pre & v & post & -> & Hv & Hpre). exists (u :: pre), v, post.
        split; [reflexivity|]. split; [assumption|].
        intros v' Hv'. apply elem_of_cons in Hv' as [->|Hv']; auto.
      - intros ([|u' pre] & v & post & E & Hv & Hpre); simpl in E;
          injection E as <- ->.
        + exfalso. exact (Hu x Hv).
        + exists pre, v, post. split; [reflexivity|]. split; [assumption|].
          intros v' Hv'. apply Hpre. now right. }
    destruct (lookup u) as [[y|]|e] eqn:E.
    + split.
      * intros [= ->]. exists [], u, rest. split; [reflexivity|].
        split; [assumption|]. intros v Hv. inversion Hv.
      * intros ([|u' pre] & v & post & E' & Hv & Hpre); simpl in E';
          injection E' as <- ->.
        -- congruence.
        -- exfalso. apply (Hpre u ltac:(left) y E).
    + apply skip. congruence.
    + apply skip. congruence.
Qed.

End Resolver.

Section SetResolver.

Lemma lookup_in_Some (available : gset string) (u x : string) :
  lookup_in available u = Returned (Some x) ↔ u = x ∧ u ∈ available.
Proof.
  unfold lookup_in. destruct (decide (u ∈ available)); split.
  - intros [= ->]. now split.
  - now intros [-> _].
  - discriminate.
  - now intros [_ ?].
Qed.

(** On a set of available UUIDs the loop returns the first candidate, in
    candidate order, that is in the set. *)
Lemma resolve_set_first (available : gset string) (candidates : list string) :
  first_matching (λ u, u ∈ available) candidates
    (BrainConnect.resolve (lookup_in available) candidates).
Proof.
  unfold BrainConnect.resolve.
  destruct (BrainConnect.resolve_from (lookup_in available) candidates None) as [x|] eqn:E.
  - apply resolve_from_Some in E as (pre & u & post & -> & Hu & Hpre).
    apply lookup_in_Some in Hu as [-> Hu]. exists pre, post.
    split; [reflexivity|]. split; [assumption|].
    intros v Hv Hin. apply (Hpre v Hv v). now apply lookup_in_Some.
  - intros v Hv Hin. apply (proj1 (resolve_from_None _ _) E v Hv v).
    now apply lookup_in_Some.
Qed.

Lemma find_known_service_first (services : list BleakGATTService) :
  first_matching (λ s, uuid s ∈ Connect.POSSIBLE_SERVICE_UUIDS) services
    (Connect.find_known_service services None).
Proof.
  apply (first_loop (λ s, bool_decide (uuid s ∈ Connect.POSSIBLE_SERVICE_UUIDS))
           _ (λ l, Connect.find_known_service l None)).
  - intros s. apply bool_decide_eq_true.
  - reflexivity.
  - reflexivity.
Qed.

End SetResolver.

(** C4, where it fails: when the peripheral reports 0000ffe0 before
    0000fee9, the service loop of [connect.py] returns 0000ffe0, the first
    service in the peripheral's order, although 0000fee9 is the first
    candidate in list order that is available (and is what the loop of
    [brainconnect.py] returns). *)
Lemma C4_connect_follows_report_order :
  Connect.find_known_service reversed_services None
    = Some (service "0000ffe0-0000-1000-8000-00805f9b34fb") ∧
  BrainConnect.resolve (lookup_in (available_uuids reversed_services))
      BrainConnect.POSSIBLE_SERVICE_UUIDS
    = Some "0000fee9-0000-1000-8000-00805f9b34fb" ∧
  ¬ first_matching (λ u, u ∈ available_uuids reversed_services)
      Connect.POSSIBLE_SERVICE_UUIDS
      (uuid <$> Connect.find_known_service reversed_services None).
Proof.
  split; [reflexivity|]. split; [reflexivity|].
  intros H.
  pose proof (resolve_set_first (available_uuids reversed_services)
                Connect.POSSIBLE_SERVICE_UUIDS) as H'.
  pose proof (first_matching_unique _ _ _ _ H H') as E.
  vm_compute in E. discriminate.
Qed.

(** C4, amended: in [brainconnect.py] resolution scans the candidate list in
    its order and returns the first candidate the peripheral offers, None
    when it offers none of them, also on the empty set, so precedence is the
    candidate list's; a lookup that raises counts as not offered.  In
    [connect.py] the service loop scans the services in the order the
    peripheral reports them and returns the first whose UUID is a candidate,
    None when there is none, so precedence there is the peripheral's. *)
Theorem C4_resolution_precedence :
  (∀ (available : gset string) (candidates : list string),
     first_matching (λ u, u ∈ available) candidates
       (BrainConnect.resolve (lookup_in available) candidates)) ∧
  (∀ candidates : list string,
     BrainConnect.resolve (lookup_in ∅) candidates = None) ∧
  (∀ (A : Type) (lookup : string → outcome (option A)) (candidates : list string),
     match BrainConnect.resolve lookup candidates with
     | Some x =>
         ∃ pre u post, candidates = (pre ++ u :: post)%list ∧
                       lookup u = Returned (Some x) ∧
                       ∀ v, v ∈ pre → ∀ y, lookup v ≠ Returned (Some y)
     | None => ∀ u, u ∈ candidates → ∀ x, lookup u ≠ Returned (Some x)
     end) ∧
  (∀ services : list BleakGATTService,
     first_matching (λ s, uuid s ∈ Connect.POSSIBLE_SERVICE_UUIDS) services
       (Connect.find_known_service services None)) ∧
  Connect.find_known_service [] None = None.
Proof.
  split; [apply resolve_set_first|]. split.
  { intros candidates.
    pose proof (resolve_set_first ∅ candidates) as H.
    destruct (BrainConnect.resolve (lookup_in ∅) candidates) as [x|]; [|reflexivity].
    destruct H as (_ & _ & _ & Hx & _). now apply not_elem_of_empty in Hx. }
  split.
  { intros A lookup candidates. unfold BrainConnect.resolve.
    destruct (BrainConnect.resolve_from lookup candidates None) as [x|] eqn:E.
    - now apply resolve_from_Some.
    - now apply resolve_from_None. }
  split; [apply find_known_service_first | reflexivity].
Qed.

(** With 0000180a and 0000ffe0 offered, 0000180f is skipped and 0000180a,
    earlier in the candidate list than 0000ffe0, is chosen. *)
Lemma C4_resolution_precedence_witness :
  BrainConnect.resolve
    (lookup_in {[ "0000ffe0-0000-1000-8000-00805f9b34fb";
                  "0000180a-0000-1000-8000-00805f9b34fb" ]})
    BrainConnect.POSSIBLE_SERVICE_UUIDS
  = Some "0000180a-0000-1000-8000-00805f9b34fb".
Proof.
  pose proof (proj1 C4_resolution_precedence
                {[ "0000ffe0-0000-1000-8000-00805f9b34fb";
                   "0000180a-0000-1000-8000-00805f9b34fb" ]}
                BrainConnect.POSSIBLE_SERVICE_UUIDS) as H.
  refine (first_matching_unique _ _ _ _ H _).
  exists (take 2 BrainConnect.POSSIBLE_SERVICE_UUIDS),
         (drop 3 BrainConnect.POSSIBLE_SERVICE_UUIDS).
  split; [reflexivity|]. split.
  - apply elem_of_union_r, elem_of_singleton. reflexivity.
  - intros y Hy. rewrite elem_of_union, !elem_of_singleton.
    apply elem_of_cons in Hy as [->|Hy];
      [|apply elem_of_cons in Hy as [->|Hy]; [|inversion Hy]];
      intros [E|E]; discriminate E.
Defined.

(** ** The session handle *)

(** C6, where it fails: with a session active, a second
    [connect_to_device()] does not fail fast.  It connects again, returns
    True and stores the new client in place of the first one, which is
    never disconnected. *)
Lemma C6_second_session_replaces_handle :
  connected_client active_world = Some first_client ∧
  fst (BrainConnect.connect_to_device scenario_transport active_world)
    = Returned true ∧
  connected_client
    (snd (BrainConnect.connect_to_device scenario_transport active_world))
    = Some second_client ∧
  second_client ≠ first_client ∧
  calls (snd (BrainConnect.connect_to_device scenario_transport active_world))
    = (calls active_world ++
       [ CallDiscover; CallConnect second_client; CallGetServices second_client;
         CallStartNotify second_client "0000fee1-0000-1000-8000-00805f9b34fb" ])%list.
Proof. vm_compute. repeat split. discriminate. Qed.

Section Session.
Context (T : transport).

(** The [try] block never raises; it stores its client when it returns True
    and leaves the handle alone otherwise, and what it calls does not
    depend on the handle. *)
Lemma connect_to_device_try_spec (device : BLEDevice) (client : BleakClient) (w : world) :
  ∃ (ok : bool) (made : list call),
    BrainConnect.connect_to_device_try T device client w
    = (Returned ok,
       {| connected_client := if ok then Some client else connected_client w;
          clients_made := clients_made w;
          calls := (calls w ++ made)%list |}) ∧
    ∀ h, BrainConnect.connect_to_device_try T device client (set_connected_client h w)
         = (Returned ok,
            {| connected_client := if ok then Some client else h;
               clients_made := clients_made w;
               calls := (calls w ++ made)%list |}).
Proof.
  unfold BrainConnect.connect_to_device_try, try_except, mbind, io_bind, await, mret, io_ret,
    write_connected_client, set_connected_client, log.
  destruct w as [h0 n cs]. cbn [connected_client clients_made calls].
  destruct (connect T (address device)) as [[]|e1];
    [|exists false, [CallConnect client]; split; [|intros h]; reflexivity].
  destruct (get_services T (address device)) as [services|e2];
    [|exists false, [CallConnect client; CallGetServices client];
      cbn; rewrite <- !app_assoc; split; [|intros h]; reflexivity].
  destruct (BrainConnect.resolve _ BrainConnect.POSSIBLE_SERVICE_UUIDS) as [s|];
    [|exists false, [CallConnect client; CallGetServices client];
      cbn; rewrite <- !app_assoc; split; [|intros h]; reflexivity].
  destruct (BrainConnect.resolve _ BrainConnect.POSSIBLE_CHARACTERISTIC_UUIDS) as [c|];
    [|exists false, [CallConnect client; CallGetServices client];
      cbn; rewrite <- !app_assoc; split; [|intros h]; reflexivity].
  destruct (start_notify T (address device) (char_uuid c)) as [[]|e3];
    [exists true, [CallConnect client; CallGetServices client;
                   CallStartNotify client (char_uuid c)]
    |exists false, [CallConnect client; CallGetServices client;
                    CallStartNotify client (char_uuid c)]];
    (cbn; rewrite <- !app_assoc; split; [|intros h]; reflexivity).
Qed.

Lemma connect_to_device_unfold (w : world) :
  BrainConnect.connect_to_device T w =
  match discover T with
  | Raised e => (Raised e, log CallDiscover w)
  | Returned devices =>
      match BrainConnect.first_brainlink devices with
      | None => (Returned false, log CallDiscover w)
      | Some device =>
          BrainConnect.connect_to_device_try T device
            {| client_id := clients_made w; client_address := address device |}
            {| connected_client := connected_client w;
               clients_made := S (clients_made w);
               calls := (calls w ++ [CallDiscover])%list |}
      end
  end.
Proof.
  unfold BrainConnect.connect_to_device, BrainConnect.find_device,
    mbind, io_bind, await, mret, io_ret, new_client.
  destruct (discover T) as [devices|e]; [|reflexivity].
  destruct (BrainConnect.first_brainlink devices); reflexivity.
Qed.

End Session.

(** C6, amended: the process-wide handle holds at most one client (it is a
    single variable), but [connect_to_device()] never consults it: it
    scans, connects and subscribes the same way whether or not a session is
    active.  When it returns True the handle is overwritten with the client
    it has just constructed; when it returns False or raises, the handle is
    left as it was. *)
Theorem C6_connect_overwrites_handle (T : transport) (w : world) :
  let run := BrainConnect.connect_to_device T w in
  (fst run = Returned true →
   ∃ addr, connected_client (snd run)
           = Some {| client_id := clients_made w; client_address := addr |}) ∧
  (fst run ≠ Returned true → connected_client (snd run) = connected_client w) ∧
  (∀ h : option BleakClient,
     let run_h := BrainConnect.connect_to_device T (set_connected_client h w) in
     fst run_h = fst run ∧ calls (snd run_h) = calls (snd run) ∧
     (fst run = Returned true →
      connected_client (snd run_h) = connected_client (snd run))).
Proof.
  cbv zeta. rewrite connect_to_device_unfold.
  assert (Hh : ∀ h, BrainConnect.connect_to_device T (set_connected_client h w)
               = match discover T with
                 | Raised e => (Raised e, log CallDiscover (set_connected_client h w))
                 | Returned devices =>
                     match BrainConnect.first_brainlink devices with
                     | None => (Returned false, log CallDiscover (set_connected_client h w))
                     | Some device =>
                         BrainConnect.connect_to_device_try T device
                           {| client_id := clients_made w;
                              client_address := address device |}
                           (set_connected_client h
                              {| connected_client := connected_client w;
                                 clients_made := S (clients_made w);
                                 calls := (calls w ++ [CallDiscover])%list |})
                     end
                 end)
    by (intros h; now rewrite connect_to_device_unfold).
  destruct (discover T) as [devices|e].
  2:{ split; [discriminate|]. split; [reflexivity|].
      intros h. rewrite Hh. repeat split. discriminate. }
  destruct (BrainConnect.first_brainlink devices) as [device|].
  2:{ split; [discriminate|]. split; [reflexivity|].
      intros h. rewrite Hh. repeat split. discriminate. }
  destruct (connect_to_device_try_spec T device
              {| client_id := clients_made w; client_address := address device |}
              {| connected_client := connected_client w;
                 clients_made := S (clients_made w);
                 calls := (calls w ++ [CallDiscover])%list |})
    as (ok & made & E & Eh).
  rewrite E. cbn [fst snd connected_client calls clients_made].
  split; [|split].
  - intros [= ->]. now exists (address device).
  - destruct ok; [intros H; now contradiction H | reflexivity].
  - intros h. rewrite Hh, Eh. cbn [fst snd connected_client calls].
    split; [reflexivity|]. split; [reflexivity|]. now intros [= ->].
Qed.

(** The second connect of the scenario stores the client it constructed. *)
Lemma C6_connect_overwrites_handle_witness :
  ∃ addr,
    connected_client
      (snd (BrainConnect.connect_to_device scenario_transport active_world))
    = Some {| client_id := clients_made active_world; client_address := addr |}.
Proof.
  apply (proj1 (C6_connect_overwrites_handle scenario_transport active_world)).
  vm_compute. reflexivity.
Defined.

(** ** Disconnecting *)

(** C10, where it fails: when the stack's disconnect call raises, the
    exception leaves [disconnect_from_device()] before the handle is reset:
    the call has been made and the handle is still set, and a caller that
    tries again has the stack called a second time. *)
Lemma C10_failed_disconnect_keeps_handle :
  fst (BrainConnect.disconnect_from_device stuck_transport connected_world)
    = Raised (BleakError "disconnect failed") ∧
  connected_client
    (snd (BrainConnect.disconnect_from_device stuck_transport connected_world))
    = Some first_client ∧
  calls (snd (BrainConnect.disconnect_from_device stuck_transport connected_world))
    = [CallDisconnect first_client] ∧
  calls (snd (BrainConnect.disconnect_from_device stuck_transport
                (snd (BrainConnect.disconnect_from_device stuck_transport
                        connected_world))))
    = [CallDisconnect first_client; CallDisconnect first_client].
Proof. repeat split. Qed.

(** C10, amended: [disconnect_from_device()] is defined on every session
    state.  With no handle it makes no call and changes nothing.  With a
    handle it makes exactly one disconnect call; when that call returns,
    the handle is cleared; when it raises, the exception propagates and the
    handle stays.  After a call that returned, a second call makes no
    further call and changes nothing, so two calls in a row have the effect
    of one (a first call that raises ends the sequence). *)
Theorem C10_disconnect_idempotent (T : transport) (w : world) :
  let once := BrainConnect.disconnect_from_device T in
  (connected_client w = None → once w = (Returned tt, w)) ∧
  (∀ client, connected_client w = Some client →
     calls (snd (once w)) = (calls w ++ [CallDisconnect client])%list ∧
     (disconnect T (client_address client) = Returned tt →
      fst (once w) = Returned tt ∧ connected_client (snd (once w)) = None) ∧
     (∀ e, disconnect T (client_address client) = Raised e →
      fst (once w) = Raised e ∧ connected_client (snd (once w)) = Some client)) ∧
  (fst (once w) = Returned tt →
   connected_client (snd (once w)) = None ∧
   once (snd (once w)) = (Returned tt, snd (once w))) ∧
  (_ ← once; once) w = once w.
Proof.
  cbv zeta.
  unfold BrainConnect.disconnect_from_device, mbind, io_bind, await, mret, io_ret,
    read_connected_client, write_connected_client, set_connected_client, log.
  destruct w as [[client|] n cs]; cbn [connected_client clients_made calls].
  - split; [discriminate|]. split.
    { intros c [= <-]. destruct (disconnect T (client_address client)) as [[]|e].
      - split; [reflexivity|]. split; [now split | discriminate].
      - split; [reflexivity|]. split; [discriminate|]. now intros e' [= <-]. }
    destruct (disconnect T (client_address client)) as [[]|e]; cbn.
    + now repeat split.
    + split; [discriminate | reflexivity].
  - split; [reflexivity|]. split; [discriminate|]. now repeat split.
Qed.

(** Disconnecting an idle process changes nothing; disconnecting the active
    one clears the handle. *)
Lemma C10_disconnect_idempotent_witness :
  BrainConnect.disconnect_from_device scenario_transport idle_world
    = (Returned tt, idle_world) ∧
  connected_client
    (snd (BrainConnect.disconnect_from_device scenario_transport active_world))
    = None.
Proof.
  split.
  - apply (proj1 (C10_disconnect_idempotent scenario_transport idle_world)).
    reflexivity.
  - apply (C10_disconnect_idempotent scenario_transport active_world).
    vm_compute. reflexivity.
Defined.


(** * Further properties of the code *)

(** ** The rich decoder and its callback *)

Section RichDecoderMore.

Lemma reading_dom att med de th al be ga q now :
  dom (reading att med de th al be ga q now) = READING_KEYS.
Proof.
  unfold reading, READING_KEYS. rewrite !dom_insert_L, dom_empty_L.
  apply set_eq. intros k. rewrite !elem_of_union, !elem_of_singleton.
  rewrite elem_of_empty. tauto.
Qed.

Lemma all_bytes_complete (b : byte) : b ∈ all_bytes.
Proof.
  assert (H : existsb (Byte.eqb b) all_bytes = true) by (destruct b; reflexivity).
  apply existsb_exists in H as (x & Hx & E).
  apply Byte.byte_dec_bl in E as ->. now apply list_elem_of_In.
Qed.

End RichDecoderMore.

(** X1: on every payload of at least 15 bytes the rich decoder returns a
    reading with exactly the nine keys: attention and meditation are bytes 8
    and 9 cut off at 100, the five bands are the rescaled bytes 10 to 14,
    the quality is the estimator's score of the whole payload and the
    timestamp is the clock reading. *)
Theorem rich_decode_complete (data : list byte) (now : float) :
  (15 <= length data)%nat →
  ∃ b8 b9 b10 b11 b12 b13 b14 r,
    data !! 8%nat = Some b8 ∧ data !! 9%nat = Some b9 ∧
    data !! 10%nat = Some b10 ∧ data !! 11%nat = Some b11 ∧
    data !! 12%nat = Some b12 ∧ data !! 13%nat = Some b13 ∧
    data !! 14%nat = Some b14 ∧
    BrainConnect.parse_brainlink_data data now = Returned r ∧
    dom r = READING_KEYS ∧
    r !! "attention" = Some (VInt (Z.min (int_of_byte b8) 100)) ∧
    r !! "meditation" = Some (VInt (Z.min (int_of_byte b9) 100)) ∧
    r !! "delta" = Some (BrainConnect.band (int_of_byte b10)) ∧
    r !! "theta" = Some (BrainConnect.band (int_of_byte b11)) ∧
    r !! "alpha" = Some (BrainConnect.band (int_of_byte b12)) ∧
    r !! "beta" = Some (BrainConnect.band (int_of_byte b13)) ∧
    r !! "gamma" = Some (BrainConnect.band (int_of_byte b14)) ∧
    r !! "signal_quality" = Some (VInt (BrainConnect.calculate_signal_quality data)) ∧
    r !! "timestamp" = Some (VFloat now).
Proof.
  intros H.
  destruct (parse_rich_complete data now H)
    as (b8 & b9 & b10 & b11 & b12 & b13 & b14 & H8 & H9 & H10 & H11 & H12 & H13 & H14 & E).
  exists b8, b9, b10, b11, b12, b13, b14. eexists.
  repeat (split; [eassumption|]). split; [apply reading_dom|].
  pose proof (reading_fields (Z.min (int_of_byte b8) 100) (Z.min (int_of_byte b9) 100)
    (BrainConnect.band (int_of_byte b10)) (BrainConnect.band (int_of_byte b11))
    (BrainConnect.band (int_of_byte b12)) (BrainConnect.band (int_of_byte b13))
    (BrainConnect.band (int_of_byte b14))
    (BrainConnect.calculate_signal_quality data) now) as F.
  cbv zeta in F. destruct F as (F1 & F2 & F3 & F4 & F5 & F6 & F7 & F8 & F9 & _).
  repeat (split; [assumption|]). assumption.
Qed.

(** The sample payload has 15 bytes; its attention byte 77 is kept. *)
Lemma rich_decode_complete_witness :
  ∃ r, BrainConnect.parse_brainlink_data sample_payload 0%float = Returned r ∧
       dom r = READING_KEYS ∧ r !! "attention" = Some (VInt 77).
Proof.
  destruct (rich_decode_complete sample_payload 0%float)
    as (b8 & b9 & b10 & b11 & b12 & b13 & b14 & r & H8 & _ & _ & _ & _ & _ & _
        & E & D & A & _); [vm_compute; lia|].
  exists r. split; [exact E|]. split; [exact D|].
  injection H8 as <-. exact A.
Defined.

(** X2: the notification callback of [brainconnect.py] raises exactly on
    payloads of 10 to 14 bytes, and what it raises is IndexError; on every
    other payload it prints a dictionary. *)
Theorem callback_raises_iff (sender : string) (data : list byte) (now : float) :
  (BrainConnect.handle_data_changed sender data now = Raised IndexError
   ↔ (10 <= length data <= 14)%nat) ∧
  (∀ e, BrainConnect.handle_data_changed sender data now = Raised e → e = IndexError).
Proof.
  unfold BrainConnect.handle_data_changed.
  destruct (Nat.lt_ge_cases (length data) 10) as [Hs|Hs].
  { rewrite (parse_rich_short data now Hs). split; [split|]; try discriminate. lia. }
  destruct (Nat.lt_ge_cases (length data) 15) as [Ht|Ht].
  { rewrite (parse_rich_truncated data now (conj Hs Ht)).
    split; [split; [lia | reflexivity]|]. now intros e [= <-]. }
  destruct (parse_rich_complete data now Ht)
    as (? & ? & ? & ? & ? & ? & ? & _ & _ & _ & _ & _ & _ & _ & E).
  rewrite E. split; [split|]; try discriminate. lia.
Qed.

Section Bands.

Lemma reading_same_but_quality att med de th al be ga q q' now (k : string) :
  k ≠ "signal_quality" →
  reading att med de th al be ga q' now !! k = reading att med de th al be ga q now !! k.
Proof.
  intros Hk. unfold reading.
  destruct (decide (k = "timestamp")) as [->|Ht].
  - now rewrite !lookup_insert_eq.
  - rewrite !(lookup_insert_ne _ "timestamp") by congruence.
    now rewrite !(lookup_insert_ne _ "signal_quality") by congruence.
Qed.

Lemma bands_increase_all :
  forallb (λ b1, forallb (bands_increase b1) all_bytes) all_bytes = true.
Proof. vm_compute. reflexivity. Qed.

End Bands.

(** X3: bytes after the fifteenth change nothing in a reading but its
    signal quality: attention, meditation, the bands and the timestamp of a
    payload and of the payload with bytes appended are the same. *)
Theorem trailing_bytes_only_reach_quality (data extra : list byte) (now : float) :
  (15 <= length data)%nat →
  ∃ r r',
    BrainConnect.parse_brainlink_data data now = Returned r ∧
    BrainConnect.parse_brainlink_data (data ++ extra)%list now = Returned r' ∧
    ∀ k, k ≠ "signal_quality" → r' !! k = r !! k.
Proof.
  intros H.
  destruct (parse_rich_complete data now H)
    as (b8 & b9 & b10 & b11 & b12 & b13 & b14
        & H8 & H9 & H10 & H11 & H12 & H13 & H14 & E).
  assert (H' : (15 <= length (data ++ extra)%list)%nat)
    by (rewrite length_app; lia).
  destruct (parse_rich_complete (data ++ extra)%list now H')
    as (c8 & c9 & c10 & c11 & c12 & c13 & c14
        & G8 & G9 & G10 & G11 & G12 & G13 & G14 & E').
  rewrite lookup_app_l in G8, G9, G10, G11, G12, G13, G14 by lia.
  assert (c8 = b8) as -> by congruence. assert (c9 = b9) as -> by congruence.
  assert (c10 = b10) as -> by congruence. assert (c11 = b11) as -> by congruence.
  assert (c12 = b12) as -> by congruence. assert (c13 = b13) as -> by congruence.
  assert (c14 = b14) as -> by congruence.
  eexists. eexists. split; [exact E|]. split; [exact E'|].
  intros k Hk. now apply reading_same_but_quality.
Qed.

(** Appending two bytes to the sample payload keeps its attention. *)
Lemma trailing_bytes_only_reach_quality_witness :
  ∃ r r',
    BrainConnect.parse_brainlink_data sample_payload 0%float = Returned r ∧
    BrainConnect.parse_brainlink_data (sample_payload ++ bytes [1; 2])%list 0%float
      = Returned r' ∧
    r' !! "attention" = r !! "attention".
Proof.
  destruct (trailing_bytes_only_reach_quality sample_payload (bytes [1; 2]) 0%float)
    as (r & r' & E & E' & Hk); [vm_compute; lia|].
  exists r, r'. split; [exact E|]. split; [exact E'|].
  apply Hk. discriminate.
Defined.

(** X4: the rescaling of a band byte is strictly increasing in binary64: a
    larger byte gives a strictly larger band, so distinct bytes never
    collapse to one band value, and the cut-off at 100 never acts. *)
Theorem band_strictly_increasing (b1 b2 : byte) :
  int_of_byte b1 < int_of_byte b2 →
  ∃ f1 f2,
    BrainConnect.band (int_of_byte b1) = VFloat f1 ∧
    BrainConnect.band (int_of_byte b2) = VFloat f2 ∧
    PrimFloat.ltb f1 f2 = true.
Proof.
  intros Hlt.
  pose proof bands_increase_all as H.
  rewrite forallb_forall in H.
  specialize (H b1 (proj1 (list_elem_of_In _ _) (all_bytes_complete b1))).
  rewrite forallb_forall in H.
  specialize (H b2 (proj1 (list_elem_of_In _ _) (all_bytes_complete b2))).
  unfold bands_increase in H. rewrite (proj2 (Z.ltb_lt _ _) Hlt) in H.
  destruct (band_byte b1) as (f1 & E1 & _), (band_byte b2) as (f2 & E2 & _).
  rewrite E1, E2 in H. now exists f1, f2.
Qed.

(** Byte 10 is below byte 64. *)
Lemma band_strictly_increasing_witness :
  ∃ f1 f2,
    BrainConnect.band 10 = VFloat f1 ∧ BrainConnect.band 64 = VFloat f2 ∧
    PrimFloat.ltb f1 f2 = true.
Proof.
  apply (band_strictly_increasing (byte_of_int 10) (byte_of_int 64)).
  vm_compute. reflexivity.
Defined.

(** X5: every band is a finite binary64 number within 2^-46 of the real
    number (raw / 255) * 100. *)
Theorem band_accuracy (b : byte) :
  ∃ f q,
    BrainConnect.band (int_of_byte b) = VFloat f ∧
    exact_value f = Some q ∧
    (Qabs (q - exact_band (int_of_byte b)) <= 1 # (2 ^ 46))%Q.
Proof.
  destruct b; eexists; eexists;
    (split; [vm_compute; reflexivity|]);
    (split; [vm_compute; reflexivity|]);
    vm_compute; discriminate.
Qed.

(** X6: on payloads of at least three bytes the minimal decoder reads
    bytes 1 and 2 and nothing else, and loses nothing of them: two payloads
    decode to the same reading exactly when they agree on bytes 1 and 2.
    The header byte, 0x02 in the docstring, is never checked. *)
Theorem minimal_decode_reads_two_bytes
    (b0 b0' b1 b1' b2 b2' : byte) (rest rest' : list byte) :
  Connect.parse_brainlink_data (b0 :: b1 :: b2 :: rest)
  = Connect.parse_brainlink_data (b0' :: b1' :: b2' :: rest')
  ↔ b1 = b1' ∧ b2 = b2'.
Proof.
  split.
  - intros E.
    pose (field := λ (k : string) (o : outcome (option (gmap string value))),
            match o with
            | Returned (Some m) => m !! k
            | _ => None
            end).
    pose proof (f_equal (field "Attention") E) as LA.
    pose proof (f_equal (field "Meditation") E) as LM.
    destruct (minimal_fields (int_of_byte b1) (int_of_byte b2)) as (A & M & _).
    destruct (minimal_fields (int_of_byte b1') (int_of_byte b2')) as (A' & M' & _).
    cbv zeta in A, M, A', M'.
    change (({[ "Attention" := VInt (int_of_byte b1);
                "Meditation" := VInt (int_of_byte b2) ]} : gmap string value)
              !! "Attention"
            = ({[ "Attention" := VInt (int_of_byte b1');
                  "Meditation" := VInt (int_of_byte b2') ]} : gmap string value)
              !! "Attention") in LA.
    change (({[ "Attention" := VInt (int_of_byte b1);
                "Meditation" := VInt (int_of_byte b2) ]} : gmap string value)
              !! "Meditation"
            = ({[ "Attention" := VInt (int_of_byte b1');
                  "Meditation" := VInt (int_of_byte b2') ]} : gmap string value)
              !! "Meditation") in LM.
    rewrite A, A' in LA. rewrite M, M' in LM.
    injection LA as LA. injection LM as LM.
    split; now apply int_of_byte_inj.
  - now intros [-> ->].
Qed.

(** ** The signal-quality estimator, further *)

Section SignalQualityMore.


(** Three pairwise distinct bytes are not all zero. *)
Lemma hasVariation_hasSignal (data : list byte) : hasVariation data → hasSignal data.
Proof.
  intros (i & j & k & bi & bj & bk & Hi & Hj & Hk & Li & Lj & Lk & Hij & _ & _).
  destruct (Byte.byte_eq_dec bi x00) as [->|Hne].
  - exists j, bj. repeat split; try assumption. congruence.
  - exists i, bi. repeat split; assumption.
Qed.



End SignalQualityMore.

(** X7: every score of the estimator is one of 20, 30, 40, 60, 80 and 95. *)
Theorem signal_quality_scores (data : list byte) :
  BrainConnect.calculate_signal_quality data ∈ [20; 30; 40; 60; 80; 95].
Proof.
  unfold BrainConnect.calculate_signal_quality.
  destruct (_ <? _)%nat; cbv zeta;
    [|destruct (match data !! 0%nat with Some b => _ | None => _ end);
      destruct (any_positive _); destruct (_ <? _)%nat; cbn [andb]];
    apply list_elem_of_In; simpl; tauto.
Qed.

(** X8: more than two distinct byte values from index 2 on imply a nonzero
    byte there, so a payload with variation scores 95 with the sync byte and
    40 without it, never 80, 60 or 20. *)
Theorem variation_decides_score (data : list byte) :
  hasVariation data →
  hasSignal data ∧
  (validSync data → BrainConnect.calculate_signal_quality data = 95) ∧
  (¬ validSync data → BrainConnect.calculate_signal_quality data = 40).
Proof.
  intros Hv. pose proof (hasVariation_hasSignal data Hv) as Hs.
  split; [assumption|].
  assert (Hlen : (length data <? 2)%nat = false).
  { apply Nat.ltb_ge. destruct Hs as (i & b & Hi & Hl & _).
    apply lookup_lt_Some in Hl. lia. }
  unfold BrainConnect.calculate_signal_quality. rewrite Hlen. cbv zeta.
  rewrite (proj2 (any_positive_hasSignal data) Hs).
  rewrite (proj2 (len_set_hasVariation data) Hv).
  pose proof (sync_validSync data) as Hsync.
  destruct (match data !! 0%nat with Some b => _ | None => _ end); cbn [andb].
  - split; [reflexivity|]. intros Hn. exfalso. apply Hn, Hsync. reflexivity.
  - split; [|reflexivity]. intros Hy. apply Hsync in Hy. discriminate.
Qed.

(** The sample payload has variation and the sync byte. *)
Lemma variation_decides_score_witness :
  hasSignal sample_payload ∧ BrainConnect.calculate_signal_quality sample_payload = 95.
Proof.
  assert (Hv : hasVariation sample_payload)
    by (apply len_set_hasVariation; reflexivity).
  destruct (variation_decides_score sample_payload Hv) as (Hs & H95 & _).
  split; [exact Hs|]. apply H95. reflexivity.
Defined.

(** X9: on a payload of at least two bytes the score is 60 or more exactly
    when byte 0 is the sync byte 0xAA. *)
Theorem sync_byte_decides_60 (data : list byte) :
  (2 <= length data)%nat →
  (60 <= BrainConnect.calculate_signal_quality data ↔ validSync data).
Proof.
  intros H. unfold BrainConnect.calculate_signal_quality.
  rewrite (proj2 (Nat.ltb_ge _ _) H). cbv zeta.
  pose proof (sync_validSync data) as Hsync.
  destruct (match data !! 0%nat with Some b => _ | None => _ end);
    destruct (any_positive _); destruct (_ <? _)%nat; cbn [andb];
    split; intros H'; try lia; try (now apply Hsync);
    apply Hsync in H'; discriminate.
Qed.

(** A synced payload without signal scores 60; an unsynced one is below. *)
Lemma sync_byte_decides_60_witness :
  60 <= BrainConnect.calculate_signal_quality silent_payload ∧
  ¬ validSync unsynced_payload.
Proof.
  split.
  - apply (sync_byte_decides_60 silent_payload); [vm_compute; lia | reflexivity].
  - intros H. apply (sync_byte_decides_60 unsynced_payload) in H;
      [|vm_compute; lia]. vm_compute in H. now apply H.
Defined.



(** ** The two device matchers, compared *)

Section MatchersCompared.

Lemma lower_append (s t : string) : lower (s +:+ t) = lower s +:+ lower t.
Proof.
  induction s as [|c s IH]; [reflexivity|].
  rewrite append_cons. cbn [lower]. now rewrite append_cons, IH.
Qed.

Lemma substring_of_lower (k s : string) :
  substring_of k s → substring_of (lower k) (lower s).
Proof.
  intros (pre & post & ->). exists (lower pre), (lower post).
  now rewrite !lower_append.
Qed.

Lemma strict_match_keyword_match (d : BLEDevice) : strict_match d → keyword_match d.
Proof.
  intros (n & Hn & Hs). exists n, "brain". split; [assumption|]. split.
  - apply list_elem_of_In. simpl. tauto.
  - apply (substring_of_lower "Brain" n Hs).
Qed.


Lemma first_matching_Some_elem {A : Type} (P : A → Prop) (l : list A) (x : A) :
  first_matching P l (Some x) → x ∈ l ∧ P x.
Proof.
  intros (pre & post & -> & Hx & _). split; [|assumption].
  apply elem_of_app. right. left.
Qed.

(** A nonempty keyword does not occur in the empty name. *)
Lemma keyword_match_named (d : BLEDevice) :
  keyword_match d → ∃ n, name d = Some n ∧ n ≠ "".
Proof.
  intros Hk. apply keyword_is_brainlink in Hk.
  unfold BrainConnect.is_brainlink in Hk.
  destruct (name d) as [[|c n]|]; try discriminate Hk.
  exists (String c n). split; [reflexivity | discriminate].
Qed.

End MatchersCompared.

(** X11: every device the matcher of [connect.py] accepts, the matcher of
    [brainconnect.py] accepts too; so whenever [connect.py] finds a device
    in a scan, [brainconnect.py] finds one as well, at the same place or
    earlier in the scan. *)
Theorem strict_matcher_is_narrower (devices : list BLEDevice) :
  (∀ d, Connect.is_brainlink d = true → BrainConnect.is_brainlink d = true) ∧
  (∀ d, Connect.match_devices devices = Some d →
     ∃ d' pre post,
       BrainConnect.first_brainlink devices = Some d' ∧
       devices = (pre ++ d' :: post)%list ∧ d ∈ d' :: post).
Proof.
  split.
  - intros d H. apply keyword_is_brainlink, strict_match_keyword_match.
    now apply strict_is_brainlink.
  - intros d Hd.
    pose proof (connect_first devices) as Hc. rewrite Hd in Hc.
    apply first_matching_Some_elem in Hc as [Hin Hs].
    apply strict_match_keyword_match in Hs.
    pose proof (brainconnect_first devices) as Hb.
    destruct (BrainConnect.first_brainlink devices) as [d'|].
    + destruct Hb as (pre & post & -> & Hd' & Hpre).
      exists d', pre, post. split; [reflexivity|]. split; [reflexivity|].
      apply elem_of_app in Hin as [Hin|Hin]; [|assumption].
      exfalso. exact (Hpre d Hin Hs).
    + exfalso. exact (Hb d Hin Hs).
Qed.

(** In the scenario scan both matchers stop at BrainLink Pro. *)
Lemma strict_matcher_is_narrower_witness :
  ∃ d' pre post,
    BrainConnect.first_brainlink scenario_scan = Some d' ∧
    scenario_scan = (pre ++ d' :: post)%list ∧
    scanned "BrainLink Pro" "AA:BB" ∈ d' :: post.
Proof.
  apply (proj2 (strict_matcher_is_narrower scenario_scan)
           (scanned "BrainLink Pro" "AA:BB")).
  reflexivity.
Defined.

(** X12: a device that either matcher returns is one of the scan results
    and has a name that is present and not empty: results without a name
    are passed over, never a failure. *)
Theorem matched_device_is_named (devices : list BLEDevice) (d : BLEDevice) :
  BrainConnect.first_brainlink devices = Some d ∨
  Connect.match_devices devices = Some d →
  d ∈ devices ∧ ∃ n, name d = Some n ∧ n ≠ "".
Proof.
  intros [H|H].
  - pose proof (brainconnect_first devices) as Hb. rewrite H in Hb.
    apply first_matching_Some_elem in Hb as [Hin Hk].
    split; [assumption | now apply keyword_match_named].
  - pose proof (connect_first devices) as Hc. rewrite H in Hc.
    apply first_matching_Some_elem in Hc as [Hin Hs].
    split; [assumption|].
    now apply keyword_match_named, strict_match_keyword_match.
Qed.

(** The device found in the scenario scan is named. *)
Lemma matched_device_is_named_witness :
  scanned "BrainLink Pro" "AA:BB" ∈ scenario_scan ∧
  ∃ n, name (scanned "BrainLink Pro" "AA:BB") = Some n ∧ n ≠ "".
Proof.
  apply (matched_device_is_named scenario_scan (scanned "BrainLink Pro" "AA:BB")).
  left. reflexivity.
Defined.

(** X13: the keyword "brainlink" of [find_device] never decides a match: a
    device is accepted exactly when its lower-cased name contains "brain",
    "eeg" or "neuro". *)
Theorem brainlink_keyword_is_redundant (d : BLEDevice) :
  BrainConnect.is_brainlink d = true ↔
  ∃ n kw, name d = Some n ∧ kw ∈ ["brain"; "eeg"; "neuro"] ∧
          contains kw (lower n) = true.
Proof.
  rewrite keyword_is_brainlink. unfold keyword_match. split.
  - intros (n & kw & Hn & Hin & Hs). exists n.
    apply list_elem_of_In in Hin. simpl in Hin.
    destruct Hin as [<-|[<-|[<-|[<-|[]]]]].
    + exists "brain". split; [assumption|].
      split; [apply list_elem_of_In; simpl; tauto|].
      apply contains_spec. destruct Hs as (pre & post & ->).
      exists pre, ("link" +:+ post). reflexivity.
    + exists "brain". split; [assumption|].
      split; [apply list_elem_of_In; simpl; tauto | now apply contains_spec].
    + exists "eeg". split; [assumption|].
      split; [apply list_elem_of_In; simpl; tauto | now apply contains_spec].
    + exists "neuro". split; [assumption|].
      split; [apply list_elem_of_In; simpl; tauto | now apply contains_spec].
  - intros (n & kw & Hn & Hin & Hc). exists n, kw. split; [assumption|].
    split; [|now apply contains_spec].
    apply list_elem_of_In in Hin. apply list_elem_of_In. simpl in *. tauto.
Qed.

(** ** The two service loops, compared *)

Section ResolversCompared.


Lemma resolve_from_app {A : Type} (lookup : string → outcome (option A))
    (c1 c2 : list string) :
  BrainConnect.resolve_from lookup (c1 ++ c2)%list None
  = match BrainConnect.resolve_from lookup c1 None with
    | Some x => Some x
    | None => BrainConnect.resolve_from lookup c2 None
    end.
Proof.
  induction c1 as [|u c1 IH]; [reflexivity|].
  cbn [app BrainConnect.resolve_from]. destruct (lookup u) as [[x|]|e]; auto.
Qed.

End ResolversCompared.



(** X15: resolution over a candidate list in two parts is resolution over
    the first part and, only when that finds nothing, over the second:
    appending candidates never changes an earlier choice. *)
Theorem resolve_append {A : Type} (lookup : string → outcome (option A))
    (c1 c2 : list string) :
  BrainConnect.resolve lookup (c1 ++ c2)%list
  = match BrainConnect.resolve lookup c1 with
    | Some x => Some x
    | None => BrainConnect.resolve lookup c2
    end.
Proof. unfold BrainConnect.resolve. apply resolve_from_app. Qed.

(** ** Setting a session up and tearing it down *)

Section SessionMore.
Context (T : transport).

(** The [try] block, step by step. *)
Lemma connect_to_device_try_run (d : BLEDevice) (c : BleakClient) (w : world) :
  BrainConnect.connect_to_device_try T d c w =
  let w1 := log (CallConnect c) w in
  match connect T (address d) with
  | Raised _ => (Returned false, w1)
  | Returned _ =>
      let w2 := log (CallGetServices c) w1 in
      match get_services T (address d) with
      | Raised _ => (Returned false, w2)
      | Returned services =>
          match BrainConnect.resolve (get_service T services)
                  BrainConnect.POSSIBLE_SERVICE_UUIDS with
          | None => (Returned false, w2)
          | Some s =>
              match BrainConnect.resolve (get_characteristic T s)
                      BrainConnect.POSSIBLE_CHARACTERISTIC_UUIDS with
              | None => (Returned false, w2)
              | Some ch =>
                  let w3 := log (CallStartNotify c (char_uuid ch)) w2 in
                  match start_notify T (address d) (char_uuid ch) with
                  | Raised _ => (Returned false, w3)
                  | Returned _ => (Returned true, set_connected_client (Some c) w3)
                  end
              end
          end
      end
  end.
Proof.
  unfold BrainConnect.connect_to_device_try, try_except, mbind, io_bind, await,
    mret, io_ret, write_connected_client.
  destruct (connect T (address d)) as [[]|e1]; [|reflexivity].
  destruct (get_services T (address d)) as [services|e2]; [|reflexivity].
  destruct (BrainConnect.resolve _ BrainConnect.POSSIBLE_SERVICE_UUIDS) as [s|];
    [|reflexivity].
  destruct (BrainConnect.resolve _ BrainConnect.POSSIBLE_CHARACTERISTIC_UUIDS) as [ch|];
    [|reflexivity].
  destruct (start_notify T (address d) (char_uuid ch)) as [[]|e3]; reflexivity.
Qed.

(** The world a successful [connect_to_device()] leaves. *)
Lemma connect_to_device_true (w : world) :
  fst (BrainConnect.connect_to_device T w) = Returned true →
  ∃ addr calls',
    snd (BrainConnect.connect_to_device T w)
    = {| connected_client :=
           Some {| client_id := clients_made w; client_address := addr |};
         clients_made := S (clients_made w);
         calls := calls' |}.
Proof.
  rewrite connect_to_device_unfold.
  destruct (discover T) as [devices|e]; [|discriminate].
  destruct (BrainConnect.first_brainlink devices) as [d|]; [|discriminate].
  destruct (connect_to_device_try_spec T d
              {| client_id := clients_made w; client_address := address d |}
              {| connected_client := connected_client w;
                 clients_made := S (clients_made w);
                 calls := (calls w ++ [CallDiscover])%list |})
    as (ok & made & -> & _).
  cbn [fst snd]. intros [= ->]. now eexists _, _.
Qed.

End SessionMore.



(** X17: what [connect_to_device()] calls is a prefix of: scan, connect,
    get the services, start notifications, the last three on the client it
    constructs.  It never calls disconnect: when it fails after connecting,
    the connection is left open and no handle refers to it. *)
Theorem connect_never_disconnects (T : transport) (w : world) :
  ∃ made c u,
    calls (snd (BrainConnect.connect_to_device T w)) = (calls w ++ made)%list ∧
    made `prefix_of`
      [CallDiscover; CallConnect c; CallGetServices c; CallStartNotify c u] ∧
    client_id c = clients_made w ∧
    ∀ c', CallDisconnect c' ∉ made.
Proof.
  assert (no_disconnect : ∀ made c u,
    made `prefix_of`
      [CallDiscover; CallConnect c; CallGetServices c; CallStartNotify c u] →
    ∀ c', CallDisconnect c' ∉ made).
  { intros made c u [k Hk] c' Hin.
    assert (Hin' : CallDisconnect c' ∈
              [CallDiscover; CallConnect c; CallGetServices c; CallStartNotify c u])
      by (rewrite Hk; apply elem_of_app; now left).
    rewrite !elem_of_cons, elem_of_nil in Hin'.
    destruct Hin' as [?|[?|[?|[?|[]]]]]; discriminate. }
  pose (c0 := {| client_id := clients_made w; client_address := "" |}).
  rewrite connect_to_device_unfold.
  destruct (discover T) as [devices|e].
  2:{ exists [CallDiscover], c0, "". split; [reflexivity|].
      assert (P : [CallDiscover] `prefix_of`
                [CallDiscover; CallConnect c0; CallGetServices c0; CallStartNotify c0 ""])
        by (eexists; reflexivity).
      split; [exact P|]. split; [reflexivity | exact (no_disconnect _ _ _ P)]. }
  destruct (BrainConnect.first_brainlink devices) as [d|].
  2:{ exists [CallDiscover], c0, "". split; [reflexivity|].
      assert (P : [CallDiscover] `prefix_of`
                [CallDiscover; CallConnect c0; CallGetServices c0; CallStartNotify c0 ""])
        by (eexists; reflexivity).
      split; [exact P|]. split; [reflexivity | exact (no_disconnect _ _ _ P)]. }
  set (c := {| client_id := clients_made w; client_address := address d |}).
  rewrite connect_to_device_try_run. cbv zeta.
  assert (finish : ∀ made u,
    made `prefix_of`
      [CallDiscover; CallConnect c; CallGetServices c; CallStartNotify c u] →
    ∃ made' c' u',
      (calls w ++ made)%list = (calls w ++ made')%list ∧
      made' `prefix_of`
        [CallDiscover; CallConnect c'; CallGetServices c'; CallStartNotify c' u'] ∧
      client_id c' = clients_made w ∧ ∀ c'', CallDisconnect c'' ∉ made').
  { intros made u P. exists made, c, u. split; [reflexivity|].
    split; [exact P|]. split; [reflexivity | exact (no_disconnect _ _ _ P)]. }
  destruct (connect T (address d)) as [[]|e1].
  2:{ destruct (finish [CallDiscover; CallConnect c] "") as (m & c' & u' & E & R);
        [eexists; reflexivity|].
      exists m, c', u'. split; [|exact R]. rewrite <- E. cbn.
      now rewrite <- app_assoc. }
  destruct (get_services T (address d)) as [services|e2].
  2:{ destruct (finish [CallDiscover; CallConnect c; CallGetServices c] "")
        as (m & c' & u' & E & R); [eexists; reflexivity|].
      exists m, c', u'. split; [|exact R]. rewrite <- E. cbn.
      now rewrite <- !app_assoc. }
  destruct (BrainConnect.resolve _ BrainConnect.POSSIBLE_SERVICE_UUIDS) as [s|].
  2:{ destruct (finish [CallDiscover; CallConnect c; CallGetServices c] "")
        as (m & c' & u' & E & R); [eexists; reflexivity|].
      exists m, c', u'. split; [|exact R]. rewrite <- E. cbn.
      now rewrite <- !app_assoc. }
  destruct (BrainConnect.resolve _ BrainConnect.POSSIBLE_CHARACTERISTIC_UUIDS) as [ch|].
  2:{ destruct (finish [CallDiscover; CallConnect c; CallGetServices c] "")
        as (m & c' & u' & E & R); [eexists; reflexivity|].
      exists m, c', u'. split; [|exact R]. rewrite <- E. cbn.
      now rewrite <- !app_assoc. }
  destruct (finish [CallDiscover; CallConnect c; CallGetServices c;
                    CallStartNotify c (char_uuid ch)] (char_uuid ch))
    as (m & c' & u' & E & R); [eexists; symmetry; apply app_nil_r|].
  exists m, c', u'. split; [|exact R]. rewrite <- E.
  destruct (start_notify T (address d) (char_uuid ch)) as [[]|e3]; cbn;
    now rewrite <- !app_assoc.
Qed.



(** X19: a successful [connect_to_device()] followed by
    [disconnect_from_device()], on a stack whose disconnect returns, ends
    with no handle, after one disconnect call on the client that the
    connect stored. *)
Theorem connect_then_disconnect (T : transport) (w : world) :
  fst (BrainConnect.connect_to_device T w) = Returned true →
  (∀ addr, disconnect T addr = Returned tt) →
  ∃ c,
    connected_client (snd (BrainConnect.connect_to_device T w)) = Some c ∧
    client_id c = clients_made w ∧
    BrainConnect.disconnect_from_device T (snd (BrainConnect.connect_to_device T w))
    = (Returned tt,
       {| connected_client := None;
          clients_made := S (clients_made w);
          calls := (calls (snd (BrainConnect.connect_to_device T w))
                    ++ [CallDisconnect c])%list |}).
Proof.
  intros Hok Hd.
  destruct (connect_to_device_true T w Hok) as (addr & calls' & Hw).
  rewrite Hw.
  exists {| client_id := clients_made w; client_address := addr |}.
  split; [reflexivity|]. split; [reflexivity|].
  unfold BrainConnect.disconnect_from_device, mbind, io_bind, await, mret, io_ret,
    read_connected_client, write_connected_client.
  cbn [connected_client client_address]. now rewrite Hd.
Qed.

(** In the scenario, connect then disconnect leaves no handle. *)
Lemma connect_then_disconnect_witness :
  connected_client
    (snd (BrainConnect.disconnect_from_device scenario_transport
            (snd (BrainConnect.connect_to_device scenario_transport idle_world))))
  = None.
Proof.
  destruct (connect_then_disconnect scenario_transport idle_world)
    as (c & _ & _ & E); [reflexivity | reflexivity |].
  now rewrite E.
Defined.

(** X20: the set-up of [connect_to_brainlink()] never touches the session
    handle and ends in one of four ways.  The scan fails or matches nothing:
    only the scan is called.  Connecting raises: the exception leaves the
    function.  It subscribes, always to the fixed CHARACTERISTIC_UUID
    whatever service it found, and waits.  In every other case (no known
    service, or a call raised after connecting) the last call is the
    disconnect of the client it connected. *)
Theorem connect_to_brainlink_releases (T : transport) (w : world) :
  let run := Connect.connect_to_brainlink_setup T w in
  connected_client (snd run) = connected_client w ∧
  ∃ made, calls (snd run) = (calls w ++ made)%list ∧
    (made = [CallDiscover] ∨
     (∃ c e, made = [CallDiscover; CallConnect c] ∧ fst run = Raised e) ∨
     (∃ c, made = [CallDiscover; CallConnect c; CallGetServices c;
                   CallStartNotify c Connect.CHARACTERISTIC_UUID] ∧
           fst run = Returned (Some c)) ∨
     (∃ c mid, made = ([CallDiscover; CallConnect c] ++ mid ++ [CallDisconnect c])%list ∧
               ∀ c', fst run ≠ Returned (Some c'))).
Proof.
  cbv zeta.
  unfold Connect.connect_to_brainlink_setup, Connect.scan_for_brainlink,
    Connect.async_with_exit, mbind, io_bind, await, mret, io_ret, new_client, log.
  destruct w as [h n cs]. cbn [connected_client clients_made calls].
  destruct (discover T) as [devices|e0]; cbn [fst snd connected_client calls].
  2:{ split; [reflexivity|]. exists [CallDiscover]. split; [reflexivity|]. now left. }
  destruct (Connect.match_devices devices) as [d|]; cbn [fst snd connected_client calls].
  2:{ split; [reflexivity|]. exists [CallDiscover]. split; [reflexivity|]. now left. }
  set (c := {| client_id := n; client_address := address d |}).
  destruct (connect T (address d)) as [[]|e1]; cbn [fst snd connected_client calls].
  2:{ split; [reflexivity|]. exists [CallDiscover; CallConnect c].
      split; [now rewrite <- app_assoc|]. right. left. now exists c, e1. }
  destruct (get_services T (address d)) as [services|e2];
    cbn [fst snd connected_client calls].
  2:{ destruct (disconnect T (address d)) as [[]|e']; cbn [fst snd connected_client calls];
        (split; [reflexivity|]);
        exists ([CallDiscover; CallConnect c] ++ [CallGetServices c] ++ [CallDisconnect c])%list;
        (split; [now rewrite <- !app_assoc|]);
        right; right; right; exists c, [CallGetServices c];
        (split; [reflexivity | discriminate]). }
  destruct (Connect.find_known_service services None) as [found|];
    cbn [fst snd connected_client calls].
  2:{ destruct (disconnect T (address d)) as [[]|e']; cbn [fst snd connected_client calls];
        (split; [reflexivity|]);
        exists ([CallDiscover; CallConnect c] ++ [CallGetServices c] ++ [CallDisconnect c])%list;
        (split; [now rewrite <- !app_assoc|]);
        right; right; right; exists c, [CallGetServices c];
        (split; [reflexivity | discriminate]). }
  destruct (start_notify T (address d) Connect.CHARACTERISTIC_UUID) as [[]|e3];
    cbn [fst snd connected_client calls].
  - split; [reflexivity|].
    exists [CallDiscover; CallConnect c; CallGetServices c;
            CallStartNotify c Connect.CHARACTERISTIC_UUID].
    split; [now rewrite <- !app_assoc|]. right. right. left. now exists c.
  - destruct (disconnect T (address d)) as [[]|e']; cbn [fst snd connected_client calls];
      (split; [reflexivity|]);
      exists ([CallDiscover; CallConnect c]
              ++ [CallGetServices c; CallStartNotify c Connect.CHARACTERISTIC_UUID]
              ++ [CallDisconnect c])%list;
      (split; [now rewrite <- !app_assoc|]);
      right; right; right;
      exists c, [CallGetServices c; CallStartNotify c Connect.CHARACTERISTIC_UUID];
      (split; [reflexivity | discriminate]).
Qed.

(** ** The decoder and the estimator together *)


